(** * Workflow runner and workflow editor of the customer demo app

    Shallow embedding of
    - [app/types/api.ts] (data model),
    - [app/workflow-test/[id]/page.tsx] (the step runner: [handleSubmit]
      and the rendered step form), and
    - [app/workflow/page.tsx] (the workflow editor: in-use flags, step
      editing handlers and [handleSubmit]),
    - [app/api/aml-check/route.ts] (the proxy the runner posts to, and the
      AML check) and [app/api/rc-challan/route.ts] (the RC challan and tax
      checks), the upstream APIs of the demo.

    JavaScript objects used as records of named values ([formData],
    [requestData], the header object) are association lists kept in
    insertion order; [obj_set] assigns a property the way [o[k] = v] and
    [{...o, [k]: v}] do (an existing key keeps its position). *)

From Stdlib Require Import String Ascii List ZArith Bool Lia Arith.
Import ListNotations.
Local Open Scope string_scope.
Set Warnings "-register-all".

(** ** JSON values and JavaScript objects *)

(** A parsed JSON document ([await response.json()]); numbers are
    integers here. *)
Inductive json : Type :=
| JNull
| JBool (b : bool)
| JNum (z : Z)
| JStr (s : string)
| JArr (l : list json)
| JObj (fields : list (string * json)).

(** JavaScript truthiness of a JSON value ([if (prevResponse)]). *)
Definition truthy (j : json) : bool :=
  match j with
  | JNull => false
  | JBool b => b
  | JNum z => negb (Z.eqb z 0)
  | JStr s => negb (String.eqb s "")
  | JArr _ | JObj _ => true
  end.

(** A JavaScript object with values of type [V]. *)
Definition obj (V : Type) := list (string * V).

Fixpoint obj_get {V} (o : obj V) (k : string) : option V :=
  match o with
  | [] => None
  | (k', v) :: o' => if String.eqb k' k then Some v else obj_get o' k
  end.

(** [o[k] = v]: overwrite in place, or append a new key. *)
Fixpoint obj_set {V} (o : obj V) (k : string) (v : V) : obj V :=
  match o with
  | [] => [(k, v)]
  | (k', v') :: o' =>
      if String.eqb k' k then (k', v) :: o' else (k', v') :: obj_set o' k v
  end.

(** ** [String.prototype.split('.')] and [parseInt] *)

Fixpoint split_dot_from (s : string) (cur : string) : list string :=
  match s with
  | EmptyString => [cur]
  | String c r =>
      if Ascii.eqb c "."%char then cur :: split_dot_from r ""
      else split_dot_from r (cur ++ String c "")
  end.

(** [s.split('.')]: every separator splits, the result is never empty. *)
Definition split_dot (s : string) : list string := split_dot_from s "".

(** White space skipped by [parseInt] (the ASCII part of it). *)
Definition is_js_ws (c : ascii) : bool :=
  let n := nat_of_ascii c in
  Nat.eqb n 32 || (Nat.leb 9 n && Nat.leb n 13).

Fixpoint skip_ws (s : string) : string :=
  match s with
  | String c r => if is_js_ws c then skip_ws r else s
  | EmptyString => EmptyString
  end.

Definition digit_val (radix : Z) (c : ascii) : option Z :=
  let n := Z.of_nat (nat_of_ascii c) in
  let d :=
    if (48 <=? n)%Z && (n <=? 57)%Z then Some (n - 48)%Z
    else if (97 <=? n)%Z && (n <=? 122)%Z then Some (n - 87)%Z
    else if (65 <=? n)%Z && (n <=? 90)%Z then Some (n - 55)%Z
    else None in
  match d with
  | Some v => if (v <? radix)%Z then Some v else None
  | None => None
  end.

(** The longest prefix of digits; [None] when there is none. *)
Fixpoint digits (radix : Z) (s : string) (acc : option Z) : option Z :=
  match s with
  | EmptyString => acc
  | String c r =>
      match digit_val radix c with
      | Some d =>
          digits radix r (Some (match acc with
                                | Some a => a * radix + d
                                | None => d
                                end)%Z)
      | None => acc
      end
  end.

(** [parseInt(s)] with no radix; [None] is [NaN]. A leading [0x] selects
    radix 16. [-0] is identified with [0], as a property key it is ["0"]. *)
Definition parseInt (s : string) : option Z :=
  let s := skip_ws s in
  let '(sign, s) :=
    match s with
    | String c r =>
        if Ascii.eqb c "-"%char then ((-1)%Z, r)
        else if Ascii.eqb c "+"%char then (1%Z, r)
        else (1%Z, s)
    | EmptyString => (1%Z, s)
    end in
  let dec := option_map (Z.mul sign) (digits 10 s None) in
  match s with
  | String z (String x r) =>
      if Ascii.eqb z "0"%char && (Ascii.eqb x "x"%char || Ascii.eqb x "X"%char)
      then option_map (Z.mul sign) (digits 16 r None)
      else dec
  | _ => dec
  end.

(** ** Property reads [value[field]] *)

Definition is_digit (c : ascii) : bool :=
  Nat.leb 48 (nat_of_ascii c) && Nat.leb (nat_of_ascii c) 57.

Fixpoint all_digits (s : string) : bool :=
  match s with
  | EmptyString => true
  | String c r => is_digit c && all_digits r
  end.

(** A canonical array index: a decimal numeral without leading zeros. *)
Definition canonical_index (s : string) : bool :=
  match s with
  | EmptyString => false
  | String c r => all_digits s && (negb (Ascii.eqb c "0"%char) || String.eqb r "")
  end.

(** The index named by the property key [field] when it is below [n]. *)
Definition index_below (field : string) (n : nat) : option nat :=
  if canonical_index field then
    match parseInt field with
    | Some z => if (z <? Z.of_nat n)%Z then Some (Z.to_nat z) else None
    | None => None
    end
  else None.

(** [value[field]] on a parsed JSON value; [None] is [undefined]. An object
    yields its own property, an array its element or its ["length"], a
    string its one-character string at the index or its ["length"].
    Members inherited from the prototypes (methods, and the [__proto__]
    accessor) are not modelled and read as [undefined]; [null] is not read
    here, the runner reads only truthy values. *)
Definition get_prop (j : json) (field : string) : option json :=
  match j with
  | JObj fs => obj_get fs field
  | JArr l =>
      if String.eqb field "length" then Some (JNum (Z.of_nat (length l)))
      else match index_below field (length l) with
           | Some i => nth_error l i
           | None => None
           end
  | JStr s =>
      if String.eqb field "length" then Some (JNum (Z.of_nat (String.length s)))
      else match index_below field (String.length s) with
           | Some i => option_map (fun c => JStr (String c EmptyString)) (String.get i s)
           | None => None
           end
  | _ => None
  end.

(** ** Data model ([types/api.ts]) *)

Inductive HttpMethod := GET | POST | PUT | DELETE | PATCH.
Inductive ParameterType := PString | PNumber | PBoolean | PObject.
Inductive ParameterLocation := LPath | LQuery | LBody.

Record ApiHeader := {
  h_key : string;
  h_value : string;
  h_isRequired : bool
}.

Record ApiParameter := {
  p_name : string;
  p_type : ParameterType;
  p_location : ParameterLocation;
  p_isRequired : bool;
  p_defaultValue : option string
}.

Record ApiResponseMapping := {
  sourceField : string;
  targetParameter : string
}.

Record WorkflowStep := {
  apiConfigId : string;
  order : nat;
  waitTime : option nat;
  responseMapping : option (list ApiResponseMapping)
}.

Record ApiWorkflow := {
  wf_id : string;
  wf_name : string;
  wf_description : string;
  steps : list WorkflowStep
}.

Record ApiConfig := {
  api_id : string;
  api_name : string;
  endpoint : string;
  method : HttpMethod;
  headers : list ApiHeader;
  parameters : list ApiParameter
}.

(** ** The step responses table ([stepResponses: Record<number, any>]) *)

Definition responses := list (nat * json).

Fixpoint resp_get (r : responses) (i : nat) : option json :=
  match r with
  | [] => None
  | (j, v) :: r' => if Nat.eqb j i then Some v else resp_get r' i
  end.

(** [{...prev, [currentStep]: data}] *)
Fixpoint resp_set (r : responses) (i : nat) (v : json) : responses :=
  match r with
  | [] => [(i, v)]
  | (j, w) :: r' => if Nat.eqb j i then (j, v) :: r' else (j, w) :: resp_set r' i v
  end.

(** [stepResponses[parseInt(prevStepIndex)]]: [NaN] and negative numbers
    name no entry. *)
Definition lookup_resp (r : responses) (k : option Z) : option json :=
  match k with
  | Some z => if (z <? 0)%Z then None else resp_get r (Z.to_nat z)
  | None => None
  end.

Definition is_some {A} (o : option A) : bool :=
  match o with Some _ => true | None => false end.

(** ** The inline response mapper (page.tsx lines 61-69) *)

(** The value one mapping assigns: [Some v] when it assigns [v] to its
    target parameter, [None] when it is skipped. *)
Definition mapping_value (resps : responses) (m : ApiResponseMapping)
  : option (option json) :=
  match split_dot (sourceField m) with
  | [] => None
  | prevStepIndex :: rest =>
      (* [const [prevStepIndex, field] = ...]: a missing [field] is
         [undefined], used as the property key "undefined" *)
      let field := match rest with [] => "undefined" | f :: _ => f end in
      match lookup_resp resps (parseInt prevStepIndex) with
      | Some prevResponse =>
          if truthy prevResponse then Some (get_prop prevResponse field) else None
      | None => None
      end
  end.

(** One iteration of [step.responseMapping.forEach(...)]. *)
Definition apply_mapping (resps : responses) (acc : obj (option json))
  (m : ApiResponseMapping) : obj (option json) :=
  match mapping_value resps m with
  | Some v => obj_set acc (targetParameter m) v
  | None => acc
  end.

(** [const requestData = { ...formData }] followed by the mapping loop. *)
Definition request_data (formData : obj string) (resps : responses)
  (rm : option (list ApiResponseMapping)) : obj (option json) :=
  let init := map (fun '(k, v) => (k, Some (JStr v))) formData in
  match rm with
  | Some ms => fold_left (apply_mapping resps) ms init
  | None => init
  end.

(** The mapper's own contribution: the loop run on an empty object. *)
Definition mapper_output (resps : responses) (ms : list ApiResponseMapping)
  : obj (option json) :=
  fold_left (apply_mapping resps) ms [].

(** The value the last mapping of [ms] that targets [k] and applies assigns. *)
Fixpoint last_mapped (resps : responses) (ms : list ApiResponseMapping) (k : string)
  : option (option json) :=
  match ms with
  | [] => None
  | m :: ms' =>
      match last_mapped resps ms' k with
      | Some v => Some v
      | None => if String.eqb (targetParameter m) k then mapping_value resps m else None
      end
  end.



(** ** The step runner ([WorkflowTestPage]) *)

(** The page's React state. [workflow] and [apis] are fixed once loaded
    and are passed separately. *)
Record runner := {
  currentStep : nat;
  stepResponses : responses;
  formData : obj string;
  error : option string;
  loading : bool
}.

Definition initial_runner : runner :=
  {| currentStep := 0; stepResponses := []; formData := [];
     error := None; loading := false |}.

(** The payload posted to [/api/proxy]. *)
Record ProxyRequest := {
  pr_endpoint : string;
  pr_method : HttpMethod;
  pr_headers : obj string;
  pr_data : obj (option json)
}.

(** What the [fetch] to the proxy and [response.json()] give back:
    a rejected [fetch] with its message, or a response with its HTTP status
    and either the parse error message of [response.json()] or the parsed
    body. *)
Inductive outcome :=
| Transport (msg : string)
| Reply (status : Z) (body : string + json).

(** [getCurrentApi()] *)
Definition getCurrentApi (wf : ApiWorkflow) (apis : list ApiConfig) (cur : nat)
  : option ApiConfig :=
  match nth_error (steps wf) cur with
  | Some step => find (fun api => String.eqb (api_id api) (apiConfigId step)) apis
  | None => None
  end.

(** [currentApi.headers.reduce((acc, header) => ({...acc, [header.key]: header.value}), {})] *)
Definition header_object (hs : list ApiHeader) : obj string :=
  fold_left (fun acc h => obj_set acc (h_key h) (h_value h)) hs [].

(** [handleSubmit]: the request it posts to the proxy (if any) and the
    state after the [finally] block. *)
Definition handleSubmit (wf : ApiWorkflow) (apis : list ApiConfig)
  (st : runner) (o : outcome) : option ProxyRequest * runner :=
  match getCurrentApi wf apis (currentStep st), nth_error (steps wf) (currentStep st) with
  | Some currentApi, Some step =>
      let requestData :=
        request_data (formData st) (stepResponses st) (responseMapping step) in
      let req := {| pr_endpoint := endpoint currentApi;
                    pr_method := method currentApi;
                    pr_headers := header_object (headers currentApi);
                    pr_data := requestData |} in
      let failed msg :=
        {| currentStep := currentStep st; stepResponses := stepResponses st;
           formData := formData st; error := Some msg; loading := false |} in
      match o with
      | Transport msg => (Some req, failed msg)
      | Reply _ (inl msg) => (Some req, failed msg)
      | Reply _ (inr data) =>
          let resps := resp_set (stepResponses st) (currentStep st) data in
          if Nat.ltb (currentStep st) (length (steps wf) - 1) then
            (Some req, {| currentStep := currentStep st + 1; stepResponses := resps;
                          formData := []; error := None; loading := false |})
          else
            (Some req, {| currentStep := currentStep st; stepResponses := resps;
                          formData := formData st; error := None; loading := false |})
      end
  | _, _ => (None, st)
  end.

(** [!param.defaultValue]: no default, or the empty string. *)
Definition no_default (p : ApiParameter) : bool :=
  match p_defaultValue p with
  | None => true
  | Some d => String.eqb d ""
  end.

(** [step.responseMapping?.some(m => m.targetParameter === param.name)] *)
Definition is_mapped (step : WorkflowStep) (p : ApiParameter) : bool :=
  match responseMapping step with
  | Some ms => existsb (fun m => String.eqb (targetParameter m) (p_name p)) ms
  | None => false
  end.

(** The input fields rendered for the current step (lines 151-152). *)
Definition visible_params (api : ApiConfig) (step : WorkflowStep) : list ApiParameter :=
  filter (fun p => no_default p && negb (is_mapped step p)) (parameters api).

(** [value={formData[param.name] || ''}] *)
Definition field_value (fd : obj string) (name : string) : string :=
  match obj_get fd name with
  | Some v => v
  | None => ""
  end.

(** An [<Input required>] left empty fails the browser's constraint
    validation. *)
Definition field_invalid (fd : obj string) (p : ApiParameter) : bool :=
  p_isRequired p && String.eqb (field_value fd (p_name p)) "".

(** Submitting the step form: the browser validates the [required] inputs
    and reports the first empty one instead of dispatching [onSubmit]. *)
Inductive submit_result :=
| NotRendered
| ValidationError (field : string)
| Submitted (req : option ProxyRequest) (st' : runner).

Definition submit_form (wf : ApiWorkflow) (apis : list ApiConfig)
  (st : runner) (o : outcome) : submit_result :=
  match getCurrentApi wf apis (currentStep st), nth_error (steps wf) (currentStep st) with
  | Some api, Some step =>
      match find (field_invalid (formData st)) (visible_params api step) with
      | Some p => ValidationError (p_name p)
      | None => let '(req, st') := handleSubmit wf apis st o in Submitted req st'
      end
  | _, _ => NotRendered
  end.

(** A successful exchange: a 2xx status and a parsed body. *)
Definition success (o : outcome) : option json :=
  match o with
  | Reply s (inr data) => if ((200 <=? s) && (s <? 300))%Z then Some data else None
  | _ => None
  end.

(** Submitting once per outcome, the user having typed the given form
    values before each submission. *)
Fixpoint run_steps (wf : ApiWorkflow) (apis : list ApiConfig) (st : runner)
  (evs : list (obj string * outcome)) : runner :=
  match evs with
  | [] => st
  | (fd, o) :: evs' =>
      let st1 := {| currentStep := currentStep st; stepResponses := stepResponses st;
                    formData := fd; error := error st; loading := loading st |} in
      run_steps wf apis (snd (handleSubmit wf apis st1 o)) evs'
  end.

(** Every step of the workflow names an API that [getCurrentApi] finds. *)
Definition all_apis_resolve (wf : ApiWorkflow) (apis : list ApiConfig) : bool :=
  forallb (fun i => match getCurrentApi wf apis i with Some _ => true | None => false end)
          (seq 0 (length (steps wf))).

(** Submissions that all succeed (HTTP 200 with the given body). *)
Definition success_events (evs : list (obj string * json)) : list (obj string * outcome) :=
  map (fun '(fd, d) => (fd, Reply 200 (inr d))) evs.

(** ** The workflow editor ([WorkflowPage]) *)

(** [workflow.steps.some(step => step.apiConfigId === id)] *)
Definition refs_api (ss : list WorkflowStep) (id : string) : bool :=
  existsb (fun s => String.eqb (apiConfigId s) id) ss.

(** The flag computed at mount (lines 28-33):
    [savedWorkflows.some(workflow => workflow.steps.some(...))]. *)
Definition in_use (saved : list ApiWorkflow) (id : string) : bool :=
  existsb (fun w => refs_api (steps w) id) saved.

Record ListedApi := {
  la_api : ApiConfig;
  isPartOfWorkflow : bool
}.

Definition mount_apis (saved : list ApiWorkflow) (apis : list ApiConfig) : list ListedApi :=
  map (fun a => {| la_api := a; isPartOfWorkflow := in_use saved (api_id a) |}) apis.

(** The [Partial<ApiWorkflow>] being edited. *)
Record Draft := {
  d_name : string;
  d_description : string;
  d_steps : list WorkflowStep
}.

Definition empty_draft : Draft :=
  {| d_name := ""; d_description := ""; d_steps := [] |}.

Definition with_steps (d : Draft) (ss : list WorkflowStep) : Draft :=
  {| d_name := d_name d; d_description := d_description d; d_steps := ss |}.

Definition set_mappings (s : WorkflowStep) (rm : option (list ApiResponseMapping))
  : WorkflowStep :=
  {| apiConfigId := apiConfigId s; order := order s; waitTime := waitTime s;
     responseMapping := rm |}.

(** [arr.filter((_, i) => i !== index)] *)
Fixpoint remove_at {A} (l : list A) (index : nat) : list A :=
  match l, index with
  | [], _ => []
  | _ :: l', 0 => l'
  | x :: l', S n => x :: remove_at l' n
  end.

(** [arr.map((x, i) => i === index ? f(x) : x)] *)
Fixpoint map_at {A} (f : A -> A) (l : list A) (index : nat) : list A :=
  match l, index with
  | [], _ => []
  | x :: l', 0 => f x :: l'
  | x :: l', S n => x :: map_at f l' n
  end.

Definition handleAddStep (d : Draft) : Draft :=
  with_steps d (app (d_steps d)
    [{| apiConfigId := ""; order := length (d_steps d) + 1; waitTime := None;
        responseMapping := Some [] |}]).

Definition handleRemoveStep (d : Draft) (index : nat) : Draft :=
  with_steps d (remove_at (d_steps d) index).

Definition handleStepChange (d : Draft) (index : nat) (id : string) : Draft :=
  with_steps d (map_at (fun s =>
    {| apiConfigId := id; order := order s; waitTime := waitTime s;
       responseMapping := Some [] |}) (d_steps d) index).

Inductive MappingField := FSourceField | FTargetParameter.

Definition update_mapping (field : MappingField) (value : string)
  (m : ApiResponseMapping) : ApiResponseMapping :=
  match field with
  | FSourceField => {| sourceField := value; targetParameter := targetParameter m |}
  | FTargetParameter => {| sourceField := sourceField m; targetParameter := value |}
  end.

Definition handleMappingChange (d : Draft) (stepIndex mappingIndex : nat)
  (field : MappingField) (value : string) : Draft :=
  with_steps d (map_at (fun s =>
    set_mappings s (option_map (fun ms => map_at (update_mapping field value) ms mappingIndex)
                               (responseMapping s))) (d_steps d) stepIndex).

Definition handleAddMapping (d : Draft) (stepIndex : nat) : Draft :=
  with_steps d (map_at (fun s =>
    set_mappings s (Some (app (match responseMapping s with Some ms => ms | None => [] end)
                              [{| sourceField := ""; targetParameter := "" |}])))
    (d_steps d) stepIndex).

Definition handleRemoveMapping (d : Draft) (stepIndex mappingIndex : nat) : Draft :=
  with_steps d (map_at (fun s =>
    set_mappings s (option_map (fun ms => remove_at ms mappingIndex) (responseMapping s)))
    (d_steps d) stepIndex).

(** [disabled={api.isPartOfWorkflow && !workflow.steps?.some(s => s.apiConfigId === api.id)}] *)
Definition option_disabled (d : Draft) (la : ListedApi) : bool :=
  isPartOfWorkflow la && negb (refs_api (d_steps d) (api_id (la_api la))).

(** A value the API [<select>] can take: the placeholder [""] or the value
    of an enabled option. *)
Definition selectable (listed : list ListedApi) (d : Draft) (v : string) : bool :=
  String.eqb v "" ||
  existsb (fun la => String.eqb (api_id (la_api la)) v && negb (option_disabled d la)) listed.

Inductive editor_event :=
| SetName (s : string)
| SetDescription (s : string)
| AddStep
| RemoveStep (index : nat)
| StepChange (index : nat) (id : string)
| AddMapping (stepIndex : nat)
| RemoveMapping (stepIndex mappingIndex : nat)
| MappingChange (stepIndex mappingIndex : nat) (field : MappingField) (value : string).

(** One user interaction; [None] when it cannot happen (a disabled option). *)
Definition editor_step (listed : list ListedApi) (d : Draft) (ev : editor_event)
  : option Draft :=
  match ev with
  | SetName s => Some {| d_name := s; d_description := d_description d; d_steps := d_steps d |}
  | SetDescription s => Some {| d_name := d_name d; d_description := s; d_steps := d_steps d |}
  | AddStep => Some (handleAddStep d)
  | RemoveStep i => Some (handleRemoveStep d i)
  | StepChange i id => if selectable listed d id then Some (handleStepChange d i id) else None
  | AddMapping i => Some (handleAddMapping d i)
  | RemoveMapping i j => Some (handleRemoveMapping d i j)
  | MappingChange i j f v => Some (handleMappingChange d i j f v)
  end.

Fixpoint editor_run (listed : list ListedApi) (d : Draft) (evs : list editor_event)
  : option Draft :=
  match evs with
  | [] => Some d
  | ev :: evs' =>
      match editor_step listed d ev with
      | Some d' => editor_run listed d' evs'
      | None => None
      end
  end.

(** The [required] name, description and API selects of the form. *)
Definition draft_valid (d : Draft) : bool :=
  negb (String.eqb (d_name d) "") && negb (String.eqb (d_description d) "") &&
  forallb (fun s => negb (String.eqb (apiConfigId s) "")) (d_steps d).

(** [handleSubmit] of the editor: read [apiWorkflows] from [localStorage]
    again and store it with the new workflow appended. *)
Definition editor_submit (saved : list ApiWorkflow) (d : Draft) (now : string)
  : list ApiWorkflow :=
  app saved [{| wf_id := now; wf_name := d_name d; wf_description := d_description d;
               steps := d_steps d |}].

(** What can happen while the editor page is open: an interaction with the
    form, a click on the Create Workflow button (never disabled), another
    tab storing a new [apiWorkflows] list, and the navigation started by
    [router.push('/dashboard')] completing, which unmounts the page. *)
Inductive page_event :=
| Edit (ev : editor_event)
| Submit (now : string)
| OtherTabWrite (ws : list ApiWorkflow)
| Navigated.

(** The stored [apiWorkflows], the API list with the flags computed at
    mount, the draft, and whether the page is still mounted. *)
Record editor_page := {
  pg_storage : list ApiWorkflow;
  pg_listed : list ListedApi;
  pg_draft : Draft;
  pg_mounted : bool
}.

(** The mount effect: the flags are computed once from the list stored at
    that time. *)
Definition mount_page (saved : list ApiWorkflow) (apis : list ApiConfig) : editor_page :=
  {| pg_storage := saved; pg_listed := mount_apis saved apis; pg_draft := empty_draft;
     pg_mounted := true |}.

Definition set_storage (p : editor_page) (ws : list ApiWorkflow) : editor_page :=
  {| pg_storage := ws; pg_listed := pg_listed p; pg_draft := pg_draft p;
     pg_mounted := pg_mounted p |}.

Definition set_draft (p : editor_page) (d : Draft) : editor_page :=
  {| pg_storage := pg_storage p; pg_listed := pg_listed p; pg_draft := d;
     pg_mounted := pg_mounted p |}.

Definition unmount (p : editor_page) : editor_page :=
  {| pg_storage := pg_storage p; pg_listed := pg_listed p; pg_draft := pg_draft p;
     pg_mounted := false |}.

(** One event; [None] when it cannot happen (picking a disabled option).
    A submit of a form failing the [required] checks does nothing, and so
    does any interaction once the page is unmounted. The draft is kept
    after a submit. *)
Definition page_step (p : editor_page) (e : page_event) : option editor_page :=
  match e with
  | Edit ev =>
      if pg_mounted p then option_map (set_draft p) (editor_step (pg_listed p) (pg_draft p) ev)
      else Some p
  | Submit now =>
      if pg_mounted p && draft_valid (pg_draft p)
      then Some (set_storage p (editor_submit (pg_storage p) (pg_draft p) now))
      else Some p
  | OtherTabWrite ws => Some (set_storage p ws)
  | Navigated => Some (unmount p)
  end.

Fixpoint page_run (p : editor_page) (evs : list page_event) : option editor_page :=
  match evs with
  | [] => Some p
  | e :: evs' =>
      match page_step p e with
      | Some p' => page_run p' evs'
      | None => None
      end
  end.

Definition is_submit (e : page_event) : bool :=
  match e with Submit _ => true | _ => false end.

Definition is_other_tab_write (e : page_event) : bool :=
  match e with OtherTabWrite _ => true | _ => false end.

(** Number of saved workflows that reference an API id. *)
Definition uses (saved : list ApiWorkflow) (id : string) : nat :=
  length (filter (fun w => refs_api (steps w) id) saved).

(** Every listed API is referenced by at most one saved workflow. *)
Definition at_most_one_use (saved : list ApiWorkflow) (apis : list ApiConfig) : bool :=
  forallb (fun a => Nat.leb (uses saved (api_id a)) 1) apis.

(** Every step of the draft has no API selected yet or an API no saved
    workflow uses. *)
Definition draft_fresh (saved : list ApiWorkflow) (d : Draft) : bool :=
  forallb (fun s => String.eqb (apiConfigId s) "" || negb (in_use saved (apiConfigId s)))
          (d_steps d).

(** Step order numbers are [1, 2, ..., n]. *)
Definition orders_contiguous (ss : list WorkflowStep) : bool :=
  forallb (fun '(s, n) => Nat.eqb (order s) n) (combine ss (seq 1 (length ss))).

(** ** Decimal step indices in mapping paths *)

(** The character of a decimal digit. *)
Definition digit_char (d : nat) : ascii := ascii_of_nat (48 + d).

Fixpoint string_of_digits (l : list nat) : string :=
  match l with
  | [] => ""
  | d :: l' => String (digit_char d) (string_of_digits l')
  end.

(** Decimal digits, most significant first ([fuel] bounds the recursion). *)
Fixpoint to_digits (fuel n : nat) : list nat :=
  match fuel with
  | 0 => [n]
  | S f => if Nat.ltb n 10 then [n] else app (to_digits f (n / 10)) [n mod 10]
  end.

(** [String(n)] for a natural number [n]: its decimal numeral. *)
Definition nat_to_string (n : nat) : string := string_of_digits (to_digits n n).

(** No ["."] in the string. *)
Fixpoint dot_free (s : string) : bool :=
  match s with
  | EmptyString => true
  | String c r => negb (Ascii.eqb c "."%char) && dot_free r
  end.

(** The value of the last header with key [k] in [hs]. *)
Definition last_header (hs : list ApiHeader) (k : string) : option string :=
  fold_left (fun acc h => if String.eqb (h_key h) k then Some (h_value h) else acc) hs None.

(** An outcome on which [handleSubmit] stores nothing: the [fetch] rejected
    or the body was not JSON. *)
Definition is_failure (o : outcome) : bool :=
  match o with
  | Reply _ (inr _) => false
  | _ => true
  end.

(** ** The proxy route ([app/api/aml-check/route.ts], second [POST]) *)

(** What the proxy's own [fetch(endpoint, requestOptions)] and
    [response.json()] give: a rejected [fetch], or a response with its
    status and either a parse error or the parsed body. *)
Inductive upstream :=
| UpFail (msg : string)
| UpReply (status : Z) (body : string + json).

(** The [RequestInit] built by the proxy; [fi_body] is the object
    serialised by [JSON.stringify(data)], absent for [GET]. *)
Record FetchInit := {
  fi_method : HttpMethod;
  fi_headers : obj string;
  fi_body : option (obj json)
}.

(** [JSON.stringify] leaves out the properties whose value is [undefined]. *)
Definition json_data (d : obj (option json)) : obj json :=
  flat_map (fun '(k, v) => match v with Some j => [(k, j)] | None => [] end) d.

(** [{'Content-Type': 'application/json', ...headers}] *)
Definition spread_headers (hs : obj string) : obj string :=
  fold_left (fun acc '(k, v) => obj_set acc k v) hs [("Content-Type", "application/json")].

Definition proxy_init (req : ProxyRequest) : FetchInit :=
  {| fi_method := pr_method req;
     fi_headers := spread_headers (pr_headers req);
     fi_body := match pr_method req with
                | GET => None
                | _ => Some (json_data (pr_data req))
                end |}.

Definition error_body (msg : string) : json := JObj [("error", JStr msg)].

(** Statuses a [Response] may not carry a body with. *)
Definition null_body_status (s : Z) : bool :=
  (Z.eqb s 204 || Z.eqb s 205 || Z.eqb s 304)%bool.

(** [NextResponse.json(responseData, { status: response.status, ... })];
    a status the [Response] constructor refuses throws inside the [try]. *)
Definition proxy_response (u : upstream) : Z * json :=
  match u with
  | UpReply s (inr j) =>
      if ((200 <=? s) && (s <=? 599) && negb (null_body_status s))%Z%bool then (s, j)
      else (500%Z, error_body "Failed to make API request")
  | _ => (500%Z, error_body "Failed to make API request")
  end.

(** The proxy always answers with JSON: what the page's [fetch] sees. *)
Definition via_proxy (r : Z * json) : outcome := Reply (fst r) (inr (snd r)).

(** ** String helpers of the API routes *)

(** [toLowerCase] on one code unit below 256: [A-Z] and [À-Þ] except [×]. *)
Definition lower_char (c : ascii) : ascii :=
  let n := nat_of_ascii c in
  if (Nat.leb 65 n && Nat.leb n 90) || (Nat.leb 192 n && Nat.leb n 222 && negb (Nat.eqb n 215))
  then ascii_of_nat (n + 32) else c.

Fixpoint to_lower (s : string) : string :=
  match s with
  | EmptyString => EmptyString
  | String c r => String (lower_char c) (to_lower r)
  end.

(** [String(z)] for an integer of magnitude below [10^21]. *)
Definition z_to_string (z : Z) : string :=
  if (z <? 0)%Z then "-" ++ nat_to_string (Z.to_nat (- z)) else nat_to_string (Z.to_nat z).

(** [String(v)] of a JSON value, as [RegExp.prototype.test] converts its
    argument: arrays are joined with [","] ([null] elements give [""]). *)
Fixpoint js_to_string (j : json) : string :=
  match j with
  | JNull => "null"
  | JBool b => if b then "true" else "false"
  | JNum z => z_to_string z
  | JStr s => s
  | JArr l =>
      (fix join (l : list json) : string :=
         match l with
         | [] => ""
         | [x] => match x with JNull => "" | _ => js_to_string x end
         | x :: r => (match x with JNull => "" | _ => js_to_string x end) ++ "," ++ join r
         end) l
  | JObj _ => "[object Object]"
  end.

(** The character classes of the routes' anchored fixed-length patterns. *)
Inductive char_class := Digit | Upper | Lit (c : ascii).

Definition class_ok (k : char_class) (c : ascii) : bool :=
  let n := nat_of_ascii c in
  match k with
  | Digit => Nat.leb 48 n && Nat.leb n 57
  | Upper => Nat.leb 65 n && Nat.leb n 90
  | Lit c' => Ascii.eqb c c'
  end.

(** [/^p$/.test(s)] for a pattern [p] of single-character classes. *)
Fixpoint full_match (p : list char_class) (s : string) : bool :=
  match p, s with
  | [], EmptyString => true
  | k :: p', String c s' => class_ok k c && full_match p' s'
  | _, _ => false
  end.

(** [/^\d{4}-\d{2}-\d{2}$/] *)
Definition date_regex : list char_class :=
  [Digit; Digit; Digit; Digit; Lit "-"; Digit; Digit; Lit "-"; Digit; Digit].

(** [/^[A-Z]{2}[0-9]{2}[A-Z]{2}[0-9]{4}$/] *)
Definition vehicle_regex : list char_class :=
  [Upper; Upper; Digit; Digit; Upper; Upper; Digit; Digit; Digit; Digit].

(** [/^[A-Z]{5}[0-9]{4}[A-Z]$/] *)
Definition pan_regex : list char_class :=
  [Upper; Upper; Upper; Upper; Upper; Digit; Digit; Digit; Digit; Upper].

(** [!x] on a destructured property ([undefined] is falsy). *)
Definition present (o : option json) : bool :=
  match o with Some j => truthy j | None => false end.

(** [x === s] for a string constant [s]. *)
Definition is_str (j : json) (s : string) : bool :=
  match j with JStr s' => String.eqb s' s | _ => false end.

(** A property path [o.k1.k2...] of a response body. *)
Fixpoint json_path (j : json) (ks : list string) : option json :=
  match ks with
  | [] => Some j
  | k :: ks' => match get_prop j k with Some j' => json_path j' ks' | None => None end
  end.

(** ** The AML check route ([app/api/aml-check/route.ts], first [POST]) *)

Definition highRiskIndividuals : list (string * string) :=
  [("John Smith", "1980-05-15"); ("Alice Johnson", "1975-12-20")].

Definition pepDatabase : list (string * string * string) :=
  [("Robert Wilson", "1968-03-10", "Former Minister")].

(** [person.name.toLowerCase() === name.toLowerCase() &&
     person.date_of_birth === date_of_birth] for a string [name]. *)
Definition person_match (pname pdob name : string) (dob : json) : bool :=
  String.eqb (to_lower pname) (to_lower name) && is_str dob pdob.

(** [mediaMatches], [hit] being the draw [Math.random() > 0.8]. *)
Definition mediaMatches (hit : bool) : list json :=
  if hit then [JObj [("source", JStr "Global News Daily"); ("date", JStr "2023-12-10");
                     ("headline", JStr "Business Investigation Report")]]
  else [].

Definition aml_result (hit : bool) (now name : string) (dob : json) : json :=
  let isHighRisk := existsb (fun '(pn, pd) => person_match pn pd name dob) highRiskIndividuals in
  let pepMatch := find (fun '(pn, pd, _) => person_match pn pd name dob) pepDatabase in
  let flagged := isHighRisk || is_some pepMatch in
  JObj [("status", JStr "success");
        ("data", JObj [
           ("name", JStr name); ("date_of_birth", dob); ("screening_date", JStr now);
           ("risk_indicators", JObj [
              ("sanctions_match", JBool isHighRisk);
              ("pep_status",
                 match pepMatch with
                 | Some (_, _, pos) => JObj [("is_pep", JBool true); ("position", JStr pos);
                                            ("risk_level", JStr "HIGH")]
                 | None => JObj [("is_pep", JBool false); ("risk_level", JStr "LOW")]
                 end);
              ("adverse_media", JObj [("found", JBool (Nat.ltb 0 (length (mediaMatches hit))));
                                      ("matches", JArr (mediaMatches hit))])]);
           ("overall_risk_score", JStr (if flagged then "HIGH" else "LOW"));
           ("recommendation", JStr (if flagged then "Enhanced Due Diligence Required"
                                    else "Standard Due Diligence Sufficient"))])].

(** The route on a request body ([None]: [request.json()] rejects), with
    the clock [now] and the random draw [hit]. Destructuring [null] and
    calling [toLowerCase] on a non-string name throw into the [catch]. *)
Definition aml_POST (hit : bool) (now : string) (body : option json) : Z * json :=
  match body with
  | None | Some JNull => (500%Z, error_body "Internal server error")
  | Some b =>
      let name := get_prop b "name" in
      let date_of_birth := get_prop b "date_of_birth" in
      match name, date_of_birth with
      | Some nm, Some dob =>
          if negb (truthy nm && truthy dob) then
            (400%Z, error_body "Name and Date of Birth are required")
          else if negb (full_match date_regex (js_to_string dob)) then
            (400%Z, error_body "Invalid date format. Use YYYY-MM-DD")
          else match nm with
               | JStr n => (200%Z, aml_result hit now n dob)
               | _ => (500%Z, error_body "Internal server error")
               end
      | _, _ => (400%Z, error_body "Name and Date of Birth are required")
      end
  end.

(** ** The RC challan route ([app/api/rc-challan/route.ts], [GET]) *)

Record Challan := {
  challan_number : string;
  violation_date : string;
  violation_type : string;
  amount : Z;
  challan_status : string
}.

Record Vehicle := {
  vehicle_number : string;
  owner_name : string;
  vehicle_class : string;
  registration_date : string;
  insurance_valid_till : string;
  fitness_valid_till : string;
  pending_challans : list Challan
}.

Definition vehicleDatabase : list Vehicle :=
  [{| vehicle_number := "MH02BR5544"; owner_name := "Rahul Kumar"; vehicle_class := "LMV";
      registration_date := "2020-06-15"; insurance_valid_till := "2024-06-14";
      fitness_valid_till := "2025-06-14";
      pending_challans := [{| challan_number := "MH20230001"; violation_date := "2023-12-15";
                              violation_type := "Speeding"; amount := 1000;
                              challan_status := "UNPAID" |}] |};
   {| vehicle_number := "DL01AB1234"; owner_name := "Priya Singh"; vehicle_class := "MCWG";
      registration_date := "2021-03-20"; insurance_valid_till := "2024-03-19";
      fitness_valid_till := "2026-03-19"; pending_challans := [] |}].

Definition challan_json (c : Challan) : json :=
  JObj [("challan_number", JStr (challan_number c)); ("violation_date", JStr (violation_date c));
        ("violation_type", JStr (violation_type c)); ("amount", JNum (amount c));
        ("status", JStr (challan_status c))].

(** [after d]: [new Date(d) > new Date()] at the time of the request. *)
Definition rc_result (after : string -> bool) (now : string) (v : Vehicle) : json :=
  let totalPendingAmount := fold_left (fun sum c => sum + amount c)%Z (pending_challans v) 0%Z in
  JObj [("status", JStr "success");
        ("data", JObj [
           ("vehicle_details", JObj [
              ("vehicle_number", JStr (vehicle_number v)); ("owner_name", JStr (owner_name v));
              ("vehicle_class", JStr (vehicle_class v));
              ("registration_date", JStr (registration_date v))]);
           ("compliance_status", JObj [
              ("insurance_valid_till", JStr (insurance_valid_till v));
              ("fitness_valid_till", JStr (fitness_valid_till v));
              ("insurance_status",
                 JStr (if after (insurance_valid_till v) then "VALID" else "EXPIRED"));
              ("fitness_status",
                 JStr (if after (fitness_valid_till v) then "VALID" else "EXPIRED"))]);
           ("challan_summary", JObj [
              ("total_pending_challans", JNum (Z.of_nat (length (pending_challans v))));
              ("total_pending_amount", JNum totalPendingAmount);
              ("challans", JArr (map challan_json (pending_challans v)))]);
           ("verification_timestamp", JStr now)])].

(** The route on [searchParams.get('vehicle_number')] ([None]: absent). *)
Definition rc_GET (after : string -> bool) (now : string) (vehicleNumber : option string)
  : Z * json :=
  match vehicleNumber with
  | None => (400%Z, error_body "Vehicle number is required")
  | Some vn =>
      if String.eqb vn "" then (400%Z, error_body "Vehicle number is required")
      else if negb (full_match vehicle_regex vn) then
        (400%Z, error_body "Invalid vehicle number format")
      else match find (fun v => String.eqb (vehicle_number v) vn) vehicleDatabase with
           | None => (404%Z, error_body "Vehicle not found")
           | Some v => (200%Z, rc_result after now v)
           end
  end.

(** ** The tax check route ([app/api/rc-challan/route.ts], [POST]) *)

Definition taxDefaulters : list (string * string) :=
  [("ABCDE1234F", "Default Corp Ltd"); ("PQRST5678G", "Defaulter Industries")].

(** [taxDefaulters.some(d => d.pan === pan ||
     d.company_name.toLowerCase() === company_name.toLowerCase())]:
    [None] when [toLowerCase] is called on a non-string company name. *)
Fixpoint defaulter_some (ds : list (string * string)) (pan company_name : json)
  : option bool :=
  match ds with
  | [] => Some false
  | (dp, dc) :: ds' =>
      if is_str pan dp then Some true
      else match company_name with
           | JStr c => if String.eqb (to_lower dc) (to_lower c) then Some true
                       else defaulter_some ds' pan company_name
           | _ => None
           end
  end.

Definition tax_result (now : string) (pan company_name : json) (isDefaulter : bool) : json :=
  JObj [("status", JStr "success");
        ("data", JObj [
           ("pan", pan); ("company_name", company_name); ("is_defaulter", JBool isDefaulter);
           ("verification_date", JStr now);
           ("risk_score", JStr (if isDefaulter then "HIGH" else "LOW"));
           ("compliance_status", JStr (if isDefaulter then "NON-COMPLIANT" else "COMPLIANT"));
           ("last_filing_date", JStr (if isDefaulter then "2022-04-15" else "2024-01-15"))])].

Definition tax_POST (now : string) (body : option json) : Z * json :=
  match body with
  | None | Some JNull => (500%Z, error_body "Internal server error")
  | Some b =>
      match get_prop b "pan", get_prop b "company_name" with
      | Some pan, Some company_name =>
          if negb (truthy pan && truthy company_name) then
            (400%Z, error_body "PAN and Company Name are required")
          else if negb (full_match pan_regex (js_to_string pan)) then
            (400%Z, error_body "Invalid PAN format")
          else match defaulter_some taxDefaulters pan company_name with
               | Some d => (200%Z, tax_result now pan company_name d)
               | None => (500%Z, error_body "Internal server error")
               end
      | _, _ => (400%Z, error_body "PAN and Company Name are required")
      end
  end.

(** ** Sample data: the two-step example of the specification *)

Definition pan_api : ApiConfig :=
  {| api_id := "pan"; api_name := "PAN verification"; endpoint := "/verify/pan";
     method := POST; headers := [{| h_key := "x-client"; h_value := "demo"; h_isRequired := true |}];
     parameters := [{| p_name := "pan"; p_type := PString; p_location := LBody;
                       p_isRequired := true; p_defaultValue := None |}] |}.

Definition aml_api : ApiConfig :=
  {| api_id := "aml"; api_name := "AML check"; endpoint := "/aml-check";
     method := POST; headers := [];
     parameters := [{| p_name := "name"; p_type := PString; p_location := LBody;
                       p_isRequired := true; p_defaultValue := None |};
                    {| p_name := "country"; p_type := PString; p_location := LBody;
                       p_isRequired := false; p_defaultValue := Some "IN" |}] |}.

Definition holder_mapping : ApiResponseMapping :=
  {| sourceField := "0.holder_name"; targetParameter := "name" |}.

Definition pan_aml_workflow : ApiWorkflow :=
  {| wf_id := "w1"; wf_name := "KYC"; wf_description := "PAN then AML";
     steps := [{| apiConfigId := "pan"; order := 1; waitTime := None; responseMapping := Some [] |};
               {| apiConfigId := "aml"; order := 2; waitTime := None;
                  responseMapping := Some [holder_mapping] |}] |}.

(** Fallback elements for [nth]. *)
Definition no_param : ApiParameter :=
  {| p_name := ""; p_type := PString; p_location := LBody;
     p_isRequired := false; p_defaultValue := None |}.

Definition no_step : WorkflowStep :=
  {| apiConfigId := ""; order := 0; waitTime := None; responseMapping := None |}.

Definition sample_apis : list ApiConfig := [pan_api; aml_api].

Definition pan_response : json :=
  JObj [("pan_valid", JBool true); ("holder_name", JStr "Jane Doe")].

(** The runner at step 1 with the PAN typed in. *)
Definition step1_state : runner :=
  {| currentStep := 0; stepResponses := []; formData := [("pan", "ABCDE1234F")];
     error := None; loading := false |}.

Definition after_step1 : runner :=
  snd (handleSubmit pan_aml_workflow sample_apis step1_state (Reply 200 (inr pan_response))).

(** An upstream error reply: HTTP 500 with a JSON error body. *)
Definition upstream_error : json := JObj [("error", JStr "upstream failure")].



(** A one-step workflow on a GET API with a body-located parameter. *)
Definition lookup_api : ApiConfig :=
  {| api_id := "lookup"; api_name := "Lookup"; endpoint := "/lookup"; method := GET;
     headers := [];
     parameters := [{| p_name := "q"; p_type := PString; p_location := LBody;
                       p_isRequired := true; p_defaultValue := None |}] |}.

Definition lookup_workflow : ApiWorkflow :=
  {| wf_id := "w3"; wf_name := "Lookup"; wf_description := "one GET step";
     steps := [{| apiConfigId := "lookup"; order := 1; waitTime := None; responseMapping := Some [] |}] |}.

Definition lookup_state : runner :=
  {| currentStep := 0; stepResponses := []; formData := [("q", "abc")];
     error := None; loading := false |}.

(** The response of step 1 in the C3 examples: an object with both an
    ["a"] and an ["a.b"] property. *)
Definition dotted_response : json := JObj [("a", JNum 1); ("a.b", JNum 2)].

Definition dotted_mapping : ApiResponseMapping :=
  {| sourceField := "0.a.b"; targetParameter := "x" |}.

(** A saved one-step workflow using the PAN API. *)
Definition pan_only_workflow : ApiWorkflow :=
  {| wf_id := "w0"; wf_name := "PAN"; wf_description := "PAN only";
     steps := [nth 0 (steps pan_aml_workflow) no_step] |}.

(** Two successful submissions of the two-step example. *)
Definition sample_run : list (obj string * json) :=
  [([("pan", "ABCDE1234F")], pan_response); ([], JObj [("risk", JStr "low")])].

(** The same two submissions answered with the statuses 201 and 200. *)
Definition sample_run_2xx : list (obj string * outcome) :=
  [([("pan", "ABCDE1234F")], Reply 201 (inr pan_response));
   ([("name", "Rahul Sharma")], Reply 200 (inr (JObj [("risk", JStr "low")])))].

(** Creating a workflow on the AML API while [pan_only_workflow] is saved. *)
Definition aml_session : list editor_event :=
  [SetName "AML"; SetDescription "AML only"; AddStep; StepChange 0 "aml"].

Definition aml_session_result : list ApiWorkflow :=
  [pan_only_workflow;
   {| wf_id := "t1"; wf_name := "AML"; wf_description := "AML only";
      steps := [{| apiConfigId := "aml"; order := 1; waitTime := None;
                   responseMapping := Some [] |}] |}].

(** The same interactions on the editor page. *)
Definition aml_edits : list page_event := map Edit aml_session.

(** Creating the AML workflow and clicking Create Workflow twice before the
    navigation completes. *)
Definition aml_double_submit : list page_event :=
  app aml_edits [Submit "t1"; Submit "t2"; Navigated].

(** A second tab, opened while [pan_only_workflow] was the only saved
    workflow, creates the AML workflow after the first tab has stored it. *)
Definition aml_second_tab : list page_event :=
  app [OtherTabWrite aml_session_result] (app aml_edits [Submit "t2"; Navigated]).

(** Sample requests of the route properties. *)
Definition sample_proxy_request : ProxyRequest :=
  {| pr_endpoint := "/aml-check"; pr_method := POST; pr_headers := [];
     pr_data := [("name", None); ("date_of_birth", Some (JStr "1980-05-15"))] |}.

Definition john_body : json :=
  JObj [("name", JStr "JOHN smith"); ("date_of_birth", JStr "1980-05-15")].

Definition john_array_body : json :=
  JObj [("name", JStr "John Smith"); ("date_of_birth", JArr [JStr "1980-05-15"])].

Definition numeric_name_body : json :=
  JObj [("name", JNum 42); ("date_of_birth", JStr "1980-05-15")].

Example pan_option_disabled :
  editor_run (mount_apis [pan_only_workflow] sample_apis) empty_draft
    [SetName "PAN 2"; AddStep; StepChange 0 "pan"] = None.
Proof. reflexivity. Qed.

Example split_dot_ex : split_dot "0.a.b" = ["0"; "a"; "b"].
Proof. reflexivity. Qed.

Example parseInt_ex : parseInt " 12abc" = Some 12%Z /\ parseInt "0x1f" = Some 31%Z
                      /\ parseInt "abc" = None /\ parseInt "-3" = Some (-3)%Z.
Proof. repeat split; reflexivity. Qed.

Example spec_example_step2 :
  option_map pr_data (fst (handleSubmit pan_aml_workflow sample_apis after_step1 (Transport "x")))
  = Some [("name", Some (JStr "Jane Doe"))].
Proof. reflexivity. Qed.

(** ** Lemmas on objects, the responses table and the mapping loop *)

Local Open Scope list_scope.

Lemma obj_get_set {V} (o : obj V) (k k' : string) (v : V) :
  obj_get (obj_set o k v) k' = if String.eqb k k' then Some v else obj_get o k'.
Proof.
  induction o as [|[k0 v0] o IH]; simpl.
  - destruct (String.eqb k k'); reflexivity.
  - destruct (String.eqb k0 k) eqn:E0.
    + apply String.eqb_eq in E0; subst; simpl.
      destruct (String.eqb k k'); reflexivity.
    + simpl; rewrite IH.
      destruct (String.eqb k0 k') eqn:E1, (String.eqb k k') eqn:E2; try reflexivity.
      apply String.eqb_eq in E1; apply String.eqb_eq in E2; subst.
      rewrite String.eqb_refl in E0; discriminate.
Qed.

Lemma resp_get_set (r : responses) (i j : nat) (v : json) :
  resp_get (resp_set r i v) j = if Nat.eqb i j then Some v else resp_get r j.
Proof.
  induction r as [|[i0 v0] r IH]; simpl.
  - destruct (Nat.eqb i j); reflexivity.
  - destruct (Nat.eqb i0 i) eqn:E0.
    + apply Nat.eqb_eq in E0; subst; simpl.
      destruct (Nat.eqb i j); reflexivity.
    + simpl; rewrite IH.
      destruct (Nat.eqb i0 j) eqn:E1, (Nat.eqb i j) eqn:E2; try reflexivity.
      apply Nat.eqb_eq in E1; apply Nat.eqb_eq in E2; subst.
      rewrite Nat.eqb_refl in E0; discriminate.
Qed.

Lemma fold_mappings_get (resps : responses) (ms : list ApiResponseMapping)
  (acc : obj (option json)) (k : string) :
  obj_get (fold_left (apply_mapping resps) ms acc) k =
  match last_mapped resps ms k with
  | Some v => Some v
  | None => obj_get acc k
  end.
Proof.
  revert acc; induction ms as [|m ms IH]; intro acc; simpl; [reflexivity|].
  rewrite IH. destruct (last_mapped resps ms k); [reflexivity|].
  unfold apply_mapping.
  destruct (mapping_value resps m) eqn:Hm.
  - rewrite obj_get_set. destruct (String.eqb (targetParameter m) k); reflexivity.
  - destruct (String.eqb (targetParameter m) k); reflexivity.
Qed.

Lemma last_mapped_untargeted (resps : responses) (ms : list ApiResponseMapping) (k : string) :
  forallb (fun m => negb (String.eqb (targetParameter m) k)) ms = true ->
  last_mapped resps ms k = None.
Proof.
  induction ms as [|m ms IH]; simpl; [reflexivity|].
  intro H; apply andb_prop in H as [H1 H2].
  rewrite (IH H2). destruct (String.eqb (targetParameter m) k); [discriminate|reflexivity].
Qed.


(** The request [handleSubmit] issues carries [request_data]. *)
Lemma handleSubmit_request (wf : ApiWorkflow) (apis : list ApiConfig) (st : runner)
  (o : outcome) (req : ProxyRequest) (st' : runner) :
  handleSubmit wf apis st o = (Some req, st') ->
  exists api step,
    getCurrentApi wf apis (currentStep st) = Some api /\
    nth_error (steps wf) (currentStep st) = Some step /\
    req = {| pr_endpoint := endpoint api; pr_method := method api;
             pr_headers := header_object (headers api);
             pr_data := request_data (formData st) (stepResponses st) (responseMapping step) |}.
Proof.
  unfold handleSubmit.
  destruct (getCurrentApi wf apis (currentStep st)) as [api|]; [|discriminate].
  destruct (nth_error (steps wf) (currentStep st)) as [step|]; [|discriminate].
  intro H; exists api, step; split; [reflexivity|split; [reflexivity|]].
  destruct o as [msg|s [msg|data]];
    [injection H; auto|injection H; auto|].
  destruct (Nat.ltb _ _); injection H; auto.
Qed.


(** ** Claims *)

(** C1 (request inputs: form values, mapped values and defaults). The
    claim says a parameter's configured default is included in the request
    when nothing else supplies it. On the spec's two-step example, the AML
    parameter [country] has the default ["IN"]; the step form renders no
    input for it (default-valued parameters are filtered out), and whatever
    the outcome, the request of step 2 carries no [country] value. *)
Theorem C1_default_not_sent :
  p_defaultValue (nth 1 (parameters aml_api) no_param) = Some "IN" /\
  currentStep after_step1 = 1 /\
  visible_params aml_api (nth 1 (steps pan_aml_workflow) no_step) = [] /\
  forall o,
    option_map (fun r => obj_get (pr_data r) "country")
      (fst (handleSubmit pan_aml_workflow sample_apis after_step1 o)) = Some None.
Proof.
  split; [reflexivity|]. split; [reflexivity|]. split; [reflexivity|].
  intros [msg|st [msg|data]]; reflexivity.
Qed.

(** C2 (a failed step parks the runner at the same step). The claim says a
    non-2xx reply leaves the runner at [Failed(i)] without advancing. The
    runner never inspects the status: a 500 reply with a JSON body at
    step 1 of the two-step example is recorded as step 1's response, no
    error is shown, and the runner moves on to step 2. *)
Theorem C2_upstream_status_advances :
  let st' := snd (handleSubmit pan_aml_workflow sample_apis step1_state
                    (Reply 500 (inr upstream_error))) in
  currentStep st' = 1 /\ error st' = None /\
  resp_get (stepResponses st') 0 = Some upstream_error /\ formData st' = [].
Proof. repeat split. Qed.

(** C3 (response mappings, as amended). The source path is split at every
    ["."]; the first segment read with [parseInt] is the step index and the
    second segment is the field name. When that step's response exists and
    is truthy, and no later mapping of the step targets the same
    parameter, the request carries under the target parameter exactly the
    single-level property [response[field]]. *)
Theorem C3_mapped_value :
  forall (resps : responses) (fd : obj string) (pre post : list ApiResponseMapping)
         (m : ApiResponseMapping) (idx f : string) (rest : list string) (k : Z) (r : json),
    split_dot (sourceField m) = idx :: f :: rest ->
    parseInt idx = Some k -> (0 <= k)%Z ->
    resp_get resps (Z.to_nat k) = Some r -> truthy r = true ->
    forallb (fun m' => negb (String.eqb (targetParameter m') (targetParameter m))) post = true ->
    obj_get (request_data fd resps (Some (pre ++ m :: post)%list)) (targetParameter m)
    = Some (get_prop r f).
Proof.
  intros resps fd pre post m idx f rest k r Hsplit Hk Hpos Hr Htr Hpost.
  unfold request_data. rewrite fold_left_app. simpl.
  rewrite fold_mappings_get, (last_mapped_untargeted _ _ _ Hpost).
  unfold apply_mapping, mapping_value. rewrite Hsplit, Hk.
  unfold lookup_resp. destruct (Z.ltb_spec k 0) as [Hlt|_]; [lia|].
  rewrite Hr, Htr, obj_get_set, String.eqb_refl. reflexivity.
Qed.

Lemma C3_mapped_value_witness :
  obj_get (request_data [] [(0, dotted_response)] (Some ([] ++ dotted_mapping :: [])%list))
    (targetParameter dotted_mapping) = Some (Some (JNum 1)).
Proof.
  rewrite (C3_mapped_value [(0, dotted_response)] [] [] [] dotted_mapping "0" "a" ["b"] 0%Z
             dotted_response); reflexivity.
Defined.

(** C3 counterexample: for the source path ["0.a.b"] the claim takes the
    field name ["a.b"] (everything after the first separator), but the
    request carries [response["a"]]. *)
Lemma C3_multi_separator_counterexample :
  obj_get (mapper_output [(0, dotted_response)] [dotted_mapping]) "x" = Some (Some (JNum 1)) /\
  obj_get (mapper_output [(0, dotted_response)] [dotted_mapping]) "x"
    <> Some (get_prop dotted_response "a.b").
Proof. split; [reflexivity|discriminate]. Qed.



(** C5 (missing required input). A required parameter of the current step
    with no default, no mapping targeting it and no value in the form is
    rendered as an empty [required] input, so the browser rejects the
    submission with a validation error: [handleSubmit] does not run and no
    request reaches the proxy. *)
Theorem C5_missing_required_blocked :
  forall (wf : ApiWorkflow) (apis : list ApiConfig) (st : runner) (o : outcome)
         (api : ApiConfig) (step : WorkflowStep) (j : nat) (p : ApiParameter),
    getCurrentApi wf apis (currentStep st) = Some api ->
    nth_error (steps wf) (currentStep st) = Some step ->
    nth_error (parameters api) j = Some p ->
    p_isRequired p = true -> p_defaultValue p = None -> is_mapped step p = false ->
    obj_get (formData st) (p_name p) = None ->
    exists name, submit_form wf apis st o = ValidationError name.
Proof.
  intros wf apis st o api step j p Hapi Hstep Hp Hreq Hdef Hmap Hform.
  unfold submit_form. rewrite Hapi, Hstep.
  destruct (find (field_invalid (formData st)) (visible_params api step)) as [q|] eqn:Hf.
  - exists (p_name q); reflexivity.
  - exfalso.
    assert (Hin : In p (visible_params api step)).
    { unfold visible_params. apply filter_In. split.
      - apply nth_error_In with j; exact Hp.
      - unfold no_default. rewrite Hdef, Hmap. reflexivity. }
    pose proof (find_none _ _ Hf p Hin) as Hinv.
    unfold field_invalid, field_value in Hinv. rewrite Hreq, Hform in Hinv.
    discriminate.
Qed.

Lemma C5_missing_required_blocked_witness :
  exists name, submit_form pan_aml_workflow sample_apis initial_runner (Reply 200 (inr pan_response))
               = ValidationError name.
Proof.
  apply (C5_missing_required_blocked pan_aml_workflow sample_apis initial_runner
           (Reply 200 (inr pan_response)) pan_api (nth 0 (steps pan_aml_workflow) no_step) 0
           (nth 0 (parameters pan_api) no_param));
    reflexivity.
Defined.

(** C6 (GET requests, as amended). For every method, GET included, the
    request posted to the proxy carries the API's method and the whole
    combined request data in its [data] field; the runner makes no
    distinction by method or parameter location. *)
Theorem C6_data_forwarded_for_every_method :
  forall (wf : ApiWorkflow) (apis : list ApiConfig) (st : runner) (o : outcome)
         (req : ProxyRequest) (st' : runner),
    handleSubmit wf apis st o = (Some req, st') ->
    exists api step,
      getCurrentApi wf apis (currentStep st) = Some api /\
      nth_error (steps wf) (currentStep st) = Some step /\
      pr_method req = method api /\
      pr_data req = request_data (formData st) (stepResponses st) (responseMapping step).
Proof.
  intros wf apis st o req st' H.
  destruct (handleSubmit_request _ _ _ _ _ _ H) as (api & step & Ha & Hs & ->).
  exists api, step; repeat split; assumption.
Qed.

Lemma C6_data_forwarded_for_every_method_witness :
  exists api step,
    getCurrentApi lookup_workflow [lookup_api] (currentStep lookup_state) = Some api /\
    nth_error (steps lookup_workflow) (currentStep lookup_state) = Some step /\
    pr_method {| pr_endpoint := "/lookup"; pr_method := GET; pr_headers := [];
                 pr_data := [("q", Some (JStr "abc"))] |} = method api /\
    pr_data {| pr_endpoint := "/lookup"; pr_method := GET; pr_headers := [];
               pr_data := [("q", Some (JStr "abc"))] |}
    = request_data (formData lookup_state) (stepResponses lookup_state) (responseMapping step).
Proof.
  apply (C6_data_forwarded_for_every_method lookup_workflow [lookup_api] lookup_state
           (Transport "down") _ {| currentStep := 0; stepResponses := [];
                                   formData := [("q", "abc")]; error := Some "down";
                                   loading := false |}).
  reflexivity.
Defined.

(** C6 counterexample: the one-step GET workflow with the body-located
    parameter [q] typed in: the posted request has method GET and a
    non-empty [data] payload. *)
Lemma C6_get_with_data_counterexample :
  option_map (fun r => (pr_method r, pr_data r))
    (fst (handleSubmit lookup_workflow [lookup_api] lookup_state (Reply 200 (inr JNull))))
  = Some (GET, [("q", Some (JStr "abc"))]) /\
  [("q", Some (JStr "abc"))] <> [].
Proof. split; [reflexivity|discriminate]. Qed.

Lemma getCurrentApi_step (wf : ApiWorkflow) (apis : list ApiConfig) (cur : nat) (api : ApiConfig) :
  getCurrentApi wf apis cur = Some api -> exists step, nth_error (steps wf) cur = Some step.
Proof.
  unfold getCurrentApi. destruct (nth_error (steps wf) cur) as [step|]; [|discriminate].
  intros _; exists step; reflexivity.
Qed.

Lemma run_success_inv (wf : ApiWorkflow) (apis : list ApiConfig) :
  all_apis_resolve wf apis = true ->
  forall evs ds st k pre,
    map (fun e => success (snd e)) evs = map Some ds ->
    k + length evs = length (steps wf) ->
    currentStep st = Nat.min k (length (steps wf) - 1) ->
    length pre = k ->
    (forall i, i < k -> resp_get (stepResponses st) i = nth_error pre i) ->
    currentStep (run_steps wf apis st evs) = length (steps wf) - 1 /\
    (forall i, i < length (steps wf) ->
       resp_get (stepResponses (run_steps wf apis st evs)) i = nth_error (pre ++ ds) i) /\
    (evs <> [] ->
     formData (run_steps wf apis st evs) = fst (last evs ([], Transport "")) /\
     error (run_steps wf apis st evs) = None).
Proof.
  intros Hall evs. induction evs as [|[fd o] evs IH];
    intros ds st k pre Hds Hlen Hcur Hpre Hents.
  - destruct ds; [|discriminate]. simpl in *. split; [lia|]. split; [|congruence].
    intros i Hi. rewrite app_nil_r. apply Hents. lia.
  - destruct ds as [|d ds]; [discriminate|]. injection Hds as Ho Hds.
    simpl in Hlen, Ho. cbn [run_steps].
    assert (Hk : currentStep st = k) by lia.
    assert (Hres : match getCurrentApi wf apis k with Some _ => true | None => false end = true).
    { unfold all_apis_resolve in Hall. rewrite forallb_forall in Hall.
      apply Hall, in_seq. lia. }
    destruct (getCurrentApi wf apis k) as [api|] eqn:Hapi; [|discriminate].
    destruct (nth_error (steps wf) k) as [step|] eqn:Hstep.
    2:{ apply nth_error_None in Hstep. lia. }
    destruct o as [msg|s [msg|d']]; try discriminate.
    unfold success in Ho.
    destruct ((200 <=? s) && (s <? 300))%Z; [injection Ho as ->|discriminate].
    unfold handleSubmit; cbn [currentStep formData stepResponses]. rewrite !Hk, !Hapi, !Hstep.
    replace (pre ++ d :: ds) with ((pre ++ [d]) ++ ds)
      by (rewrite <- app_assoc; reflexivity).
    assert (Hents' : forall i, i < k + 1 ->
              resp_get (resp_set (stepResponses st) k d) i = nth_error (pre ++ [d]) i).
    { intros i Hi. rewrite resp_get_set.
      destruct (Nat.eqb_spec k i) as [->|Hne].
      - rewrite nth_error_app2 by lia. replace (i - length pre) with 0 by lia. reflexivity.
      - rewrite nth_error_app1 by lia. apply Hents. lia. }
    destruct (Nat.ltb_spec k (length (steps wf) - 1)) as [Hlt|Hge]; cbn [snd];
      lazymatch goal with |- context [run_steps wf apis ?s evs] =>
        destruct (IH ds s (k + 1) (pre ++ [d]) Hds) as (Hc & He & Hf) end;
      try exact Hents'; try (rewrite length_app; simpl; lia); try (simpl; lia);
      (split; [exact Hc|]); (split; [exact He|]); intros _;
      (destruct evs as [|e evs]; [|apply Hf; discriminate]).
    + simpl in Hlen. lia.
    + split; reflexivity.
Qed.

Lemma handleSubmit_endpoint (wf : ApiWorkflow) (apis : list ApiConfig) (st : runner)
  (api : ApiConfig) (o : outcome) :
  getCurrentApi wf apis (currentStep st) = Some api ->
  option_map pr_endpoint (fst (handleSubmit wf apis st o)) = Some (endpoint api).
Proof.
  intros Ha. destruct (getCurrentApi_step _ _ _ _ Ha) as [step Hs].
  unfold handleSubmit; rewrite Ha, Hs.
  destruct o as [msg|s [msg|d]]; try reflexivity.
  destruct (Nat.ltb _ _); reflexivity.
Qed.

(** C7 (running every step, as amended). Submitting each step of an
    [n]-step workflow once, each exchange succeeding (any 2xx status with a
    JSON body), records for every index [0 .. n-1] the body that step
    returned and leaves the current step index at [n - 1]: there is no
    separate finished state. The last step's form keeps the values typed
    for it, and it can be submitted again: the request goes to the last
    step's API, and a further success keeps the step and the form and
    replaces only the last step's entry. Each successful submission of a
    non-final step moves to the next index and clears the form. *)
Theorem C7_run_to_last_step :
  forall (wf : ApiWorkflow) (apis : list ApiConfig)
         (evs : list (obj string * outcome)) (ds : list json),
    all_apis_resolve wf apis = true ->
    length evs = length (steps wf) -> 0 < length evs ->
    map (fun e => success (snd e)) evs = map Some ds ->
    (let st := run_steps wf apis initial_runner evs in
     currentStep st = length evs - 1 /\
     (forall i, i < length evs -> resp_get (stepResponses st) i = nth_error ds i) /\
     formData st = fst (last evs ([], Transport "")) /\ error st = None /\
     exists api, getCurrentApi wf apis (currentStep st) = Some api /\
       forall o, option_map pr_endpoint (fst (handleSubmit wf apis st o)) = Some (endpoint api) /\
         forall data, success o = Some data ->
           let st2 := snd (handleSubmit wf apis st o) in
           currentStep st2 = currentStep st /\ formData st2 = formData st /\
           forall j, resp_get (stepResponses st2) j =
                     if Nat.eqb j (currentStep st) then Some data
                     else resp_get (stepResponses st) j) /\
    (forall (st : runner) (o : outcome) (data : json),
       success o = Some data ->
       getCurrentApi wf apis (currentStep st) <> None ->
       currentStep st < length (steps wf) - 1 ->
       currentStep (snd (handleSubmit wf apis st o)) = currentStep st + 1 /\
       formData (snd (handleSubmit wf apis st o)) = [] /\
       resp_get (stepResponses (snd (handleSubmit wf apis st o))) (currentStep st) = Some data).
Proof.
  intros wf apis evs ds Hall Hlen Hpos Hds. split.
  - destruct (run_success_inv wf apis Hall evs ds initial_runner 0 [] Hds)
      as (Hc & He & Hf); simpl; try lia.
    assert (Hne : evs <> []) by (intros ->; simpl in Hpos; lia).
    destruct (Hf Hne) as [Hfd Herr].
    set (st := run_steps wf apis initial_runner evs) in *.
    cbv zeta. split; [lia|]. split; [intros i Hi; apply He; lia|].
    split; [exact Hfd|]. split; [exact Herr|].
    assert (Hres : match getCurrentApi wf apis (currentStep st) with
                   | Some _ => true | None => false end = true).
    { unfold all_apis_resolve in Hall. rewrite forallb_forall in Hall.
      apply Hall, in_seq. lia. }
    destruct (getCurrentApi wf apis (currentStep st)) as [api|] eqn:Ha; [|discriminate].
    exists api. split; [reflexivity|]. intros o.
    split; [apply handleSubmit_endpoint, Ha|].
    intros data Hs.
    destruct (getCurrentApi_step _ _ _ _ Ha) as [step Hstep].
    destruct o as [msg|s [msg|d]]; try discriminate.
    unfold success in Hs.
    destruct ((200 <=? s) && (s <? 300))%Z; [injection Hs as ->|discriminate].
    unfold handleSubmit; rewrite Ha, Hstep.
    replace (Nat.ltb (currentStep st) (length (steps wf) - 1)) with false
      by (symmetry; apply Nat.ltb_ge; lia).
    cbn. repeat split. intro j. rewrite resp_get_set, Nat.eqb_sym. reflexivity.
  - intros st o data Hs Hapi Hlt.
    destruct (getCurrentApi wf apis (currentStep st)) as [api|] eqn:Ha; [|congruence].
    destruct (nth_error (steps wf) (currentStep st)) as [step|] eqn:Hstep.
    2:{ apply nth_error_None in Hstep. lia. }
    destruct o as [msg|status [msg|d]]; try discriminate.
    unfold success in Hs.
    destruct ((200 <=? status) && (status <? 300))%Z; [injection Hs as ->|discriminate].
    unfold handleSubmit; rewrite Ha, Hstep.
    destruct (Nat.ltb_spec (currentStep st) (length (steps wf) - 1)); [|lia].
    simpl. rewrite resp_get_set, Nat.eqb_refl. auto.
Qed.

Lemma C7_run_to_last_step_witness :
  let st := run_steps pan_aml_workflow sample_apis initial_runner sample_run_2xx in
  (currentStep st = length sample_run_2xx - 1 /\
   (forall i, i < length sample_run_2xx ->
      resp_get (stepResponses st) i = nth_error (map snd sample_run) i) /\
   formData st = fst (last sample_run_2xx ([], Transport "")) /\ error st = None /\
   exists api, getCurrentApi pan_aml_workflow sample_apis (currentStep st) = Some api /\
     forall o, option_map pr_endpoint (fst (handleSubmit pan_aml_workflow sample_apis st o))
               = Some (endpoint api) /\
       forall data, success o = Some data ->
         let st2 := snd (handleSubmit pan_aml_workflow sample_apis st o) in
         currentStep st2 = currentStep st /\ formData st2 = formData st /\
         forall j, resp_get (stepResponses st2) j =
                   if Nat.eqb j (currentStep st) then Some data
                   else resp_get (stepResponses st) j) /\
  (forall (st : runner) (o : outcome) (data : json),
     success o = Some data ->
     getCurrentApi pan_aml_workflow sample_apis (currentStep st) <> None ->
     currentStep st < length (steps pan_aml_workflow) - 1 ->
     currentStep (snd (handleSubmit pan_aml_workflow sample_apis st o)) = currentStep st + 1 /\
     formData (snd (handleSubmit pan_aml_workflow sample_apis st o)) = [] /\
     resp_get (stepResponses (snd (handleSubmit pan_aml_workflow sample_apis st o)))
       (currentStep st) = Some data).
Proof.
  apply (C7_run_to_last_step pan_aml_workflow sample_apis sample_run_2xx (map snd sample_run));
    [reflexivity|reflexivity|simpl; lia|reflexivity].
Defined.

(** C7 counterexample: after the single step of [pan_only_workflow]
    succeeds, the runner is still at step index 0 with the step's form
    values, and submitting again issues step 1's request once more, so no
    terminal finished state is reached. *)
Lemma C7_no_finished_state_counterexample :
  let st := run_steps pan_only_workflow sample_apis initial_runner
              (success_events [([("pan", "ABCDE1234F")], pan_response)]) in
  currentStep st = 0 /\ formData st = [("pan", "ABCDE1234F")] /\
  resp_get (stepResponses st) 0 = Some pan_response /\
  option_map pr_endpoint (fst (handleSubmit pan_only_workflow sample_apis st (Transport "down")))
    = Some "/verify/pan".
Proof. repeat split. Qed.

(** C8 (re-running a failed step). The claim says step [i] can be run
    again after it fails. A 500 reply at step 1 of the two-step example
    moves the runner on (the defect of C2), so the next submission issues
    the request of step 2 ([/aml-check]) and step 1 cannot be re-run. The
    frame part of the claim holds: [handleSubmit_frame] shows that an
    attempt never writes an entry other than its own step's. *)
Theorem C8_failed_step_not_rerun :
  let st' := snd (handleSubmit pan_aml_workflow sample_apis step1_state
                    (Reply 500 (inr upstream_error))) in
  currentStep st' = 1 /\
  option_map pr_endpoint (fst (handleSubmit pan_aml_workflow sample_apis st'
                                 (Reply 200 (inr pan_response)))) = Some "/aml-check".
Proof. split; reflexivity. Qed.

(** C9 (contiguous step order numbers). Adding two steps gives orders
    [1; 2]; removing the first one leaves [2], since [handleRemoveStep]
    does not renumber, and adding a step after that gives [2; 2]. *)
Theorem C9_remove_breaks_contiguity :
  option_map (fun d => map order (d_steps d))
    (editor_run [] empty_draft [AddStep; AddStep]) = Some [1; 2] /\
  option_map (fun d => (map order (d_steps d), orders_contiguous (d_steps d)))
    (editor_run [] empty_draft [AddStep; AddStep; RemoveStep 0]) = Some ([2], false) /\
  option_map (fun d => (map order (d_steps d), orders_contiguous (d_steps d)))
    (editor_run [] empty_draft [AddStep; AddStep; RemoveStep 0; AddStep]) = Some ([2; 2], false).
Proof. repeat split. Qed.

(** ** The editor and the APIs already used by a workflow *)

Lemma forallb_remove_at {A} (f : A -> bool) (l : list A) (i : nat) :
  forallb f l = true -> forallb f (remove_at l i) = true.
Proof.
  revert i; induction l as [|x l IH]; intros [|i] H; simpl in *; auto.
  - apply andb_prop in H as [_ H]; exact H.
  - apply andb_prop in H as [H1 H2]. rewrite H1, (IH i H2). reflexivity.
Qed.

Lemma forallb_map_at {A} (f : A -> bool) (g : A -> A) (l : list A) (i : nat) :
  forallb f l = true -> (forall x, f x = true -> f (g x) = true) ->
  forallb f (map_at g l i) = true.
Proof.
  intros H Hg; revert i; induction l as [|x l IH]; intros [|i]; simpl in *; auto;
    apply andb_prop in H as [H1 H2].
  - rewrite (Hg x H1), H2; reflexivity.
  - rewrite H1, (IH H2 i); reflexivity.
Qed.

Lemma refs_api_true (ss : list WorkflowStep) (id : string) :
  refs_api ss id = true -> exists s, In s ss /\ apiConfigId s = id.
Proof.
  unfold refs_api; intro H. apply existsb_exists in H as (s & Hin & Heq).
  apply String.eqb_eq in Heq. eauto.
Qed.

(** An option the editor lets the user pick keeps the draft fresh. *)
Lemma selectable_fresh (saved : list ApiWorkflow) (apis : list ApiConfig) (d : Draft) (v : string) :
  draft_fresh saved d = true ->
  selectable (mount_apis saved apis) d v = true ->
  String.eqb v "" || negb (in_use saved v) = true.
Proof.
  intros Hd Hsel. unfold selectable in Hsel.
  destruct (String.eqb v "") eqn:Hv; [reflexivity|]. simpl in *.
  apply existsb_exists in Hsel as (la & Hin & Hla).
  apply andb_prop in Hla as [Hid Hen]. apply String.eqb_eq in Hid.
  unfold mount_apis in Hin. apply in_map_iff in Hin as (a & <- & _).
  simpl in Hid, Hen. subst v. unfold option_disabled in Hen. simpl in Hen.
  destruct (in_use saved (api_id a)) eqn:Hu; [|reflexivity].
  simpl in Hen. destruct (refs_api (d_steps d) (api_id a)) eqn:Hr; [|discriminate].
  apply refs_api_true in Hr as (s & Hs & Hsid).
  unfold draft_fresh in Hd. rewrite forallb_forall in Hd.
  specialize (Hd s Hs). rewrite Hsid, Hv, Hu in Hd. discriminate.
Qed.

Lemma editor_step_fresh (saved : list ApiWorkflow) (apis : list ApiConfig)
  (d d' : Draft) (ev : editor_event) :
  draft_fresh saved d = true ->
  editor_step (mount_apis saved apis) d ev = Some d' ->
  draft_fresh saved d' = true.
Proof.
  intros Hd Hstep. unfold draft_fresh in *.
  destruct ev as [s|s| |i|i id|i|i j|i j f v]; simpl in Hstep.
  - injection Hstep as <-; exact Hd.
  - injection Hstep as <-; exact Hd.
  - injection Hstep as <-. simpl. rewrite forallb_app, Hd. reflexivity.
  - injection Hstep as <-. apply forallb_remove_at, Hd.
  - destruct (selectable (mount_apis saved apis) d id) eqn:Hsel; [|discriminate].
    injection Hstep as <-. simpl. apply forallb_map_at; [exact Hd|].
    intros x _. simpl. exact (selectable_fresh saved apis d id Hd Hsel).
  - injection Hstep as <-. apply forallb_map_at; [exact Hd|]. intros x Hx; exact Hx.
  - injection Hstep as <-. apply forallb_map_at; [exact Hd|]. intros x Hx; exact Hx.
  - injection Hstep as <-. apply forallb_map_at; [exact Hd|]. intros x Hx; exact Hx.
Qed.

Lemma editor_run_fresh (saved : list ApiWorkflow) (apis : list ApiConfig)
  (evs : list editor_event) (d d' : Draft) :
  draft_fresh saved d = true ->
  editor_run (mount_apis saved apis) d evs = Some d' ->
  draft_fresh saved d' = true.
Proof.
  revert d; induction evs as [|ev evs IH]; intros d Hd Hrun; simpl in Hrun.
  - injection Hrun as <-; exact Hd.
  - destruct (editor_step (mount_apis saved apis) d ev) as [d1|] eqn:Hs; [|discriminate].
    exact (IH d1 (editor_step_fresh saved apis d d1 ev Hd Hs) Hrun).
Qed.

Lemma uses_unused (saved : list ApiWorkflow) (id : string) :
  in_use saved id = false -> uses saved id = 0.
Proof.
  unfold uses, in_use. induction saved as [|w saved IH]; simpl; [reflexivity|].
  destruct (refs_api (steps w) id); [discriminate|exact IH].
Qed.

Lemma uses_app (saved : list ApiWorkflow) (w : ApiWorkflow) (id : string) :
  uses (saved ++ [w]) id = uses saved id + (if refs_api (steps w) id then 1 else 0).
Proof.
  unfold uses. rewrite filter_app, length_app. simpl.
  destruct (refs_api (steps w) id); reflexivity.
Qed.

Lemma submit_keeps_exclusive (saved : list ApiWorkflow) (apis : list ApiConfig)
  (d : Draft) (now : string) :
  at_most_one_use saved apis = true -> draft_fresh saved d = true -> draft_valid d = true ->
  at_most_one_use (editor_submit saved d now) apis = true.
Proof.
  intros Hone Hfresh Hvalid.
  unfold at_most_one_use in *. rewrite forallb_forall in *.
  intros a Ha. unfold editor_submit. rewrite uses_app. simpl.
  destruct (refs_api (d_steps d) (api_id a)) eqn:Hr.
  - apply refs_api_true in Hr as (s & Hs & Hsid).
    unfold draft_valid in Hvalid. apply andb_prop in Hvalid as [_ Hids].
    rewrite forallb_forall in Hids. specialize (Hids s Hs).
    unfold draft_fresh in Hfresh. rewrite forallb_forall in Hfresh.
    specialize (Hfresh s Hs). rewrite Hsid in Hids, Hfresh.
    apply negb_true_iff in Hids. rewrite Hids in Hfresh. simpl in Hfresh.
    apply negb_true_iff in Hfresh. rewrite (uses_unused _ _ Hfresh). reflexivity.
  - rewrite Nat.add_0_r. apply Hone, Ha.
Qed.

Lemma page_run_single_submit (saved : list ApiWorkflow) (apis : list ApiConfig) :
  at_most_one_use saved apis = true ->
  forall (evs : list page_event) (p p' : editor_page),
    pg_listed p = mount_apis saved apis ->
    draft_fresh saved (pg_draft p) = true ->
    forallb (fun e => negb (is_other_tab_write e)) evs = true ->
    (pg_storage p = saved /\ length (filter is_submit evs) <= 1 \/
     at_most_one_use (pg_storage p) apis = true /\ length (filter is_submit evs) = 0) ->
    page_run p evs = Some p' ->
    at_most_one_use (pg_storage p') apis = true.
Proof.
  intros Hone evs. induction evs as [|e evs IH]; intros p p' Hl Hf Hno Hst Hrun.
  - injection Hrun as <-. destruct Hst as [[-> _]|[H _]]; assumption.
  - simpl in Hno. apply andb_prop in Hno as [He Hno]. simpl in Hrun.
    destruct (page_step p e) as [p1|] eqn:Hs; [|discriminate].
    apply (IH p1 p'); try assumption; clear IH Hrun;
      destruct e as [ev|now|ws|]; simpl in Hs, He |- *; try discriminate.
    + destruct (pg_mounted p); [|injection Hs as <-; exact Hl].
      destruct (editor_step _ _ ev); [|discriminate]. injection Hs as <-. exact Hl.
    + destruct (pg_mounted p && draft_valid (pg_draft p)); injection Hs as <-; exact Hl.
    + injection Hs as <-. exact Hl.
    + destruct (pg_mounted p); [|injection Hs as <-; exact Hf].
      destruct (editor_step _ _ ev) as [d|] eqn:Hd; [|discriminate]. injection Hs as <-.
      rewrite Hl in Hd. exact (editor_step_fresh saved apis _ _ ev Hf Hd).
    + destruct (pg_mounted p && draft_valid (pg_draft p)); injection Hs as <-; exact Hf.
    + injection Hs as <-. exact Hf.
    + destruct (pg_mounted p); [|injection Hs as <-; exact Hst].
      destruct (editor_step _ _ ev); [|discriminate]. injection Hs as <-. exact Hst.
    + destruct (pg_mounted p && draft_valid (pg_draft p)) eqn:Hv.
      * injection Hs as <-. destruct Hst as [[Hsv Hc]|[_ Hc]]; [|discriminate].
        right. split; [|simpl in Hc; lia]. cbn [set_storage pg_storage].
        apply andb_prop in Hv as [_ Hv]. rewrite Hsv.
        exact (submit_keeps_exclusive saved apis _ now Hone Hf Hv).
      * injection Hs as <-. destruct Hst as [[Hsv Hc]|[H Hc]]; [|discriminate].
        left. split; [exact Hsv|simpl in Hc; lia].
    + injection Hs as <-. exact Hst.
Qed.

(** C10 (an API belongs to at most one workflow). The editor computes the
    in-use flags once, at mount; it never disables Create Workflow, and
    [handleSubmit] reads [apiWorkflows] again before appending. With
    [pan_only_workflow] stored, the AML API is flagged free ([pan] is in
    use). Creating a workflow on it and clicking Create Workflow twice
    before the navigation completes stores it twice, so the AML API is used
    by two workflows. The same happens with two tabs: a second tab opened
    on the same list still sees the AML API free after the first tab has
    stored its AML workflow, and appends a second one. *)
Theorem C10_api_reused_by_resubmit :
  at_most_one_use [pan_only_workflow] sample_apis = true /\
  map isPartOfWorkflow (pg_listed (mount_page [pan_only_workflow] sample_apis)) = [true; false] /\
  option_map (fun p => (uses (pg_storage p) "aml", at_most_one_use (pg_storage p) sample_apis))
    (page_run (mount_page [pan_only_workflow] sample_apis) aml_double_submit) = Some (2, false) /\
  option_map pg_storage
    (page_run (mount_page [pan_only_workflow] sample_apis) (app aml_edits [Submit "t1"; Navigated]))
    = Some aml_session_result /\
  at_most_one_use aml_session_result sample_apis = true /\
  option_map (fun p => (uses (pg_storage p) "aml", at_most_one_use (pg_storage p) sample_apis))
    (page_run (mount_page [pan_only_workflow] sample_apis) aml_second_tab) = Some (2, false).
Proof. repeat split. Qed.

(** ** Decimal numerals and [parseInt] *)

Lemma digit_char_facts (d : nat) :
  d < 10 ->
  is_js_ws (digit_char d) = false /\ Ascii.eqb (digit_char d) "-"%char = false /\
  Ascii.eqb (digit_char d) "+"%char = false /\ Ascii.eqb (digit_char d) "x"%char = false /\
  Ascii.eqb (digit_char d) "X"%char = false /\ Ascii.eqb (digit_char d) "."%char = false /\
  digit_val 10 (digit_char d) = Some (Z.of_nat d).
Proof.
  intro H. do 10 (destruct d as [|d]; [vm_compute; repeat split; reflexivity|]). lia.
Qed.

Lemma to_digits_spec (fuel n : nat) :
  n <= fuel ->
  to_digits fuel n <> [] /\ Forall (fun d => d < 10) (to_digits fuel n) /\
  fold_left (fun a d => a * 10 + d) (to_digits fuel n) 0 = n.
Proof.
  revert n; induction fuel as [|f IH]; intros n Hn; cbn [to_digits].
  - replace n with 0 by lia.
    split; [discriminate|split; [constructor; [lia|constructor]|reflexivity]].
  - destruct (Nat.ltb_spec n 10) as [Hlt|Hge].
    + split; [discriminate|split; [constructor; [lia|constructor]|reflexivity]].
    + assert (Hdiv : n / 10 <= f).
      { assert (n / 10 < n) by (apply Nat.div_lt; lia). lia. }
      destruct (IH (n / 10) Hdiv) as (_ & Hall & Hval).
      split; [|split].
      * intro Hnil. apply app_eq_nil in Hnil as [_ Hnil]. discriminate.
      * apply Forall_app; split; [exact Hall|constructor; [apply Nat.mod_upper_bound; lia|constructor]].
      * rewrite fold_left_app, Hval. cbn [fold_left].
        pose proof (Nat.div_mod_eq n 10). lia.
Qed.

Lemma digits_of_digits (l : list nat) (a : Z) :
  Forall (fun d => d < 10) l ->
  digits 10 (string_of_digits l) (Some a)
  = Some (fold_left (fun acc d => acc * 10 + Z.of_nat d)%Z l a).
Proof.
  revert a; induction l as [|d l IH]; intros a Hall; [reflexivity|].
  inversion Hall as [|? ? Hd Hl]; subst.
  destruct (digit_char_facts d Hd) as (_ & _ & _ & _ & _ & _ & Hv).
  cbn [string_of_digits digits fold_left]. rewrite Hv. apply IH, Hl.
Qed.

Lemma horner_Z (l : list nat) (a : nat) :
  fold_left (fun acc d => acc * 10 + Z.of_nat d)%Z l (Z.of_nat a)
  = Z.of_nat (fold_left (fun acc d => acc * 10 + d) l a).
Proof.
  revert a; induction l as [|d l IH]; intro a; [reflexivity|].
  cbn [fold_left]. rewrite <- IH. f_equal. lia.
Qed.

(** [parseInt(String(n))] is [n]. *)
Lemma parseInt_nat_to_string (n : nat) : parseInt (nat_to_string n) = Some (Z.of_nat n).
Proof.
  destruct (to_digits_spec n n (le_n n)) as (Hne & Hall & Hval).
  unfold nat_to_string. destruct (to_digits n n) as [|d l] eqn:Hd; [congruence|].
  inversion Hall as [|? ? Hd10 Hl].
  destruct (digit_char_facts d Hd10) as (Hws & Hm & Hp & _ & _ & _ & Hv).
  assert (Hdec : digits 10 (string_of_digits (d :: l)) None = Some (Z.of_nat n)).
  { cbn [string_of_digits digits]. rewrite Hv. rewrite (digits_of_digits l _ Hl).
    rewrite <- Hval. cbn [fold_left]. rewrite <- horner_Z. reflexivity. }
  unfold parseInt. cbn [string_of_digits skip_ws]. rewrite Hws, Hm, Hp.
  destruct l as [|d' l].
  - cbn [string_of_digits] in Hdec |- *. rewrite Hdec. cbn [option_map]. apply f_equal, Z.mul_1_l.
  - inversion Hl as [|? ? Hd'10 _].
    destruct (digit_char_facts d' Hd'10) as (_ & _ & _ & Hx & HX & _ & _).
    cbn [string_of_digits] in Hdec |- *. rewrite Hx, HX, andb_false_r. rewrite Hdec. cbn [option_map]. apply f_equal, Z.mul_1_l.
Qed.

(** ** Further properties of the runner, the editor, the proxy and the API routes *)

(** Without another tab writing [apiWorkflows] and with at most one click
    on Create Workflow, a visit of the editor page keeps every API in at
    most one saved workflow. *)
Theorem editor_single_submit_exclusive (saved : list ApiWorkflow) (apis : list ApiConfig)
  (evs : list page_event) (p : editor_page) :
  at_most_one_use saved apis = true ->
  forallb (fun e => negb (is_other_tab_write e)) evs = true ->
  length (filter is_submit evs) <= 1 ->
  page_run (mount_page saved apis) evs = Some p ->
  at_most_one_use (pg_storage p) apis = true.
Proof.
  intros Hone Hno Hc Hrun.
  exact (page_run_single_submit saved apis Hone evs (mount_page saved apis) p eq_refl eq_refl Hno
           (or_introl (conj eq_refl Hc)) Hrun).
Qed.

Lemma editor_single_submit_exclusive_witness :
  at_most_one_use [pan_only_workflow] sample_apis = true /\
  page_run (mount_page [pan_only_workflow] sample_apis) (app aml_edits [Submit "t1"; Navigated])
    = Some {| pg_storage := aml_session_result;
              pg_listed := mount_apis [pan_only_workflow] sample_apis;
              pg_draft := {| d_name := "AML"; d_description := "AML only";
                             d_steps := steps (nth 1 aml_session_result pan_only_workflow) |};
              pg_mounted := false |} /\
  at_most_one_use aml_session_result sample_apis = true.
Proof.
  split; [reflexivity|]. split; [reflexivity|].
  apply (editor_single_submit_exclusive [pan_only_workflow] sample_apis
           (app aml_edits [Submit "t1"; Navigated])
           {| pg_storage := aml_session_result;
              pg_listed := mount_apis [pan_only_workflow] sample_apis;
              pg_draft := {| d_name := "AML"; d_description := "AML only";
                             d_steps := steps (nth 1 aml_session_result pan_only_workflow) |};
              pg_mounted := false |}); reflexivity.
Defined.

(** The editor's in-use flag of each listed API is whether some workflow
    stored at mount has a step with its id, and an API flagged in use whose
    id no step of the draft references cannot be picked. *)
Theorem editor_in_use_disabled (saved : list ApiWorkflow) (apis : list ApiConfig) :
  (forall la, In la (pg_listed (mount_page saved apis)) ->
     isPartOfWorkflow la = in_use saved (api_id (la_api la))) /\
  (forall (d : Draft) (v : string),
     String.eqb v "" = false -> in_use saved v = true -> refs_api (d_steps d) v = false ->
     selectable (pg_listed (mount_page saved apis)) d v = false).
Proof.
  split.
  - intros la Hla. cbn [mount_page pg_listed] in Hla. unfold mount_apis in Hla.
    apply in_map_iff in Hla as (a & <- & _). reflexivity.
  - intros d v Hv Hu Hr. cbn [mount_page pg_listed]. unfold selectable. rewrite Hv. simpl.
    apply not_true_iff_false. intro He.
    apply existsb_exists in He as (la & Hin & Hla).
    apply andb_prop in Hla as [Hid Hen]. apply String.eqb_eq in Hid.
    unfold mount_apis in Hin. apply in_map_iff in Hin as (a & <- & _).
    simpl in Hid, Hen. subst v. unfold option_disabled in Hen. simpl in Hen.
    rewrite Hu, Hr in Hen. discriminate.
Qed.

Lemma fold_header_get (hs : list ApiHeader) (acc : obj string) (k : string) :
  obj_get (fold_left (fun acc h => obj_set acc (h_key h) (h_value h)) hs acc) k =
  fold_left (fun a h => if String.eqb (h_key h) k then Some (h_value h) else a) hs (obj_get acc k).
Proof.
  revert acc; induction hs as [|h hs IH]; intro acc; [reflexivity|].
  cbn [fold_left]. rewrite IH, obj_get_set. reflexivity.
Qed.

(** The header object posted to the proxy maps a key to the value of the last configured header with that key (the [reduce] lets later headers override earlier ones). *)
Theorem header_object_last (hs : list ApiHeader) (k : string) :
  obj_get (header_object hs) k = last_header hs k.
Proof. apply fold_header_get. Qed.

(** When the current step names an API that is not configured, the step form is not rendered and [handleSubmit] returns at once: no request, state unchanged. *)
Theorem handleSubmit_unresolved_api (wf : ApiWorkflow) (apis : list ApiConfig) (st : runner)
  (o : outcome) :
  getCurrentApi wf apis (currentStep st) = None ->
  handleSubmit wf apis st o = (None, st) /\ submit_form wf apis st o = NotRendered.
Proof. intro H; unfold handleSubmit, submit_form; rewrite H; split; reflexivity. Qed.

Lemma handleSubmit_unresolved_api_witness :
  getCurrentApi pan_aml_workflow [aml_api] 0 = None /\
  handleSubmit pan_aml_workflow [aml_api] initial_runner (Transport "x") = (None, initial_runner) /\
  submit_form pan_aml_workflow [aml_api] initial_runner (Transport "x") = NotRendered.
Proof. split; [reflexivity|]. apply (handleSubmit_unresolved_api _ _ initial_runner). reflexivity. Defined.

(** After a failed submission (a rejected [fetch] or a body that is not JSON) the runner keeps its step, responses and form, so submitting again sends exactly the same request. *)
Theorem retry_after_failure (wf : ApiWorkflow) (apis : list ApiConfig) (st : runner)
  (o0 o : outcome) :
  is_failure o0 = true ->
  let st1 := snd (handleSubmit wf apis st o0) in
  fst (handleSubmit wf apis st1 o) = fst (handleSubmit wf apis st o0) /\
  currentStep st1 = currentStep st /\ stepResponses st1 = stepResponses st /\
  formData st1 = formData st.
Proof.
  intros Hf st1. subst st1.
  destruct (getCurrentApi wf apis (currentStep st)) as [api|] eqn:Ha.
  - destruct (getCurrentApi_step _ _ _ _ Ha) as [step Hs].
    destruct o0 as [msg|s [msg|data]]; [| |discriminate];
      unfold handleSubmit; rewrite Ha, Hs; cbn [snd fst currentStep stepResponses formData];
      rewrite Ha, Hs; (split; [|repeat split]);
      destruct o as [m|s' [m|d]]; try reflexivity; destruct (Nat.ltb _ _); reflexivity.
  - unfold handleSubmit; rewrite Ha; cbn [snd]; rewrite Ha; repeat split.
Qed.

Lemma retry_after_failure_witness :
  is_failure (Transport "offline") = true /\
  (let st1 := snd (handleSubmit pan_aml_workflow sample_apis step1_state (Transport "offline")) in
   fst (handleSubmit pan_aml_workflow sample_apis st1 (Reply 200 (inr pan_response))) =
   fst (handleSubmit pan_aml_workflow sample_apis step1_state (Transport "offline")) /\
   currentStep st1 = currentStep step1_state /\ stepResponses st1 = stepResponses step1_state /\
   formData st1 = formData step1_state).
Proof. split; [reflexivity|]. apply retry_after_failure. reflexivity. Defined.

(** At the last step a reply with a JSON body keeps the runner on that step with its form, clears the error and replaces only that step's entry: the last step can be run again and again. *)
Theorem last_step_rerun (wf : ApiWorkflow) (apis : list ApiConfig) (st : runner)
  (api : ApiConfig) (s : Z) (data : json) :
  getCurrentApi wf apis (currentStep st) = Some api ->
  S (currentStep st) = length (steps wf) ->
  let st' := snd (handleSubmit wf apis st (Reply s (inr data))) in
  currentStep st' = currentStep st /\ formData st' = formData st /\ error st' = None /\
  forall j, resp_get (stepResponses st') j =
            if Nat.eqb j (currentStep st) then Some data else resp_get (stepResponses st) j.
Proof.
  intros Ha Hlen st'. subst st'.
  destruct (getCurrentApi_step _ _ _ _ Ha) as [step Hs].
  unfold handleSubmit; rewrite Ha, Hs.
  replace (Nat.ltb (currentStep st) (length (steps wf) - 1)) with false
    by (symmetry; apply Nat.ltb_ge; lia).
  cbn. repeat split. intro j. rewrite resp_get_set, Nat.eqb_sym. reflexivity.
Qed.

Lemma last_step_rerun_witness :
  getCurrentApi pan_aml_workflow sample_apis (currentStep after_step1) = Some aml_api /\
  S (currentStep after_step1) = length (steps pan_aml_workflow) /\
  (let st' := snd (handleSubmit pan_aml_workflow sample_apis after_step1 (Reply 200 (inr upstream_error))) in
   currentStep st' = currentStep after_step1 /\ formData st' = formData after_step1 /\ error st' = None /\
   forall j, resp_get (stepResponses st') j =
             if Nat.eqb j (currentStep after_step1) then Some upstream_error
             else resp_get (stepResponses after_step1) j).
Proof.
  split; [reflexivity|]. split; [reflexivity|].
  apply (last_step_rerun _ _ _ aml_api); reflexivity.
Defined.
Lemma obj_get_absent {V} (o : obj V) (k : string) :
  ~ In k (map fst o) -> obj_get o k = None.
Proof.
  induction o as [|[k0 v0] o IH]; intro Hk; [reflexivity|]. simpl in *.
  destruct (String.eqb k0 k) eqn:E.
  - apply String.eqb_eq in E; subst; exfalso; apply Hk; left; reflexivity.
  - apply IH; intro H; apply Hk; right; exact H.
Qed.

Lemma obj_set_keys {V} (o : obj V) (k x : string) (v : V) :
  In x (map fst (obj_set o k v)) -> x = k \/ In x (map fst o).
Proof.
  induction o as [|[k0 v0] o IH]; simpl.
  - intros [H|[]]; left; symmetry; exact H.
  - destruct (String.eqb k0 k); simpl.
    + intros [H|H]; right; [left; exact H|right; exact H].
    + intros [H|H]; [right; left; exact H|].
      destruct (IH H) as [H'|H']; [left; exact H'|right; right; exact H'].
Qed.

Lemma obj_set_nodup {V} (o : obj V) (k : string) (v : V) :
  NoDup (map fst o) -> NoDup (map fst (obj_set o k v)).
Proof.
  induction o as [|[k0 v0] o IH]; simpl; intro Hnd.
  - constructor; [intros []|constructor].
  - inversion Hnd as [|? ? Hk0 Hnd']; subst.
    destruct (String.eqb k0 k) eqn:E; simpl.
    + constructor; assumption.
    + constructor; [|apply IH, Hnd'].
      intro Hin. destruct (obj_set_keys o k k0 v Hin) as [H|H]; [|exact (Hk0 H)].
      subst; rewrite String.eqb_refl in E; discriminate.
Qed.

Lemma header_object_nodup (hs : list ApiHeader) :
  NoDup (map fst (header_object hs)).
Proof.
  unfold header_object.
  assert (G : forall acc : obj string, NoDup (map fst acc) ->
            NoDup (map fst (fold_left (fun acc h => obj_set acc (h_key h) (h_value h)) hs acc))).
  { induction hs as [|h hs IH]; intros acc Hacc; [exact Hacc|].
    apply IH, obj_set_nodup, Hacc. }
  apply G; constructor.
Qed.

Lemma spread_get {V} (o acc : obj V) (k : string) :
  NoDup (map fst o) ->
  obj_get (fold_left (fun acc '(k, v) => obj_set acc k v) o acc) k =
  match obj_get o k with Some v => Some v | None => obj_get acc k end.
Proof.
  revert acc; induction o as [|[k0 v0] o IH]; intros acc Hnd; [reflexivity|].
  inversion Hnd as [|? ? Hk0 Hnd']; subst.
  cbn [fold_left obj_get]. rewrite IH by exact Hnd'.
  destruct (String.eqb k0 k) eqn:E.
  - apply String.eqb_eq in E; subst.
    rewrite obj_get_absent by exact Hk0. rewrite obj_get_set, String.eqb_refl. reflexivity.
  - destruct (obj_get o k); [reflexivity|]. rewrite obj_get_set, E. reflexivity.
Qed.


(** The headers the proxy sends upstream are the configured ones (the last value per key), plus [Content-Type: application/json] unless a header with that exact key is configured. *)
Theorem proxy_headers_sent (hs : list ApiHeader) (k : string) :
  obj_get (spread_headers (header_object hs)) k =
  match last_header hs k with
  | Some v => Some v
  | None => if String.eqb "Content-Type" k then Some "application/json" else None
  end.
Proof.
  unfold spread_headers. rewrite spread_get by apply header_object_nodup.
  rewrite header_object_last. reflexivity.
Qed.

Lemma json_data_get (d : obj (option json)) (k : string) :
  NoDup (map fst d) ->
  obj_get (json_data d) k = match obj_get d k with Some (Some v) => Some v | _ => None end.
Proof.
  induction d as [|[k0 v0] d IH]; intro Hnd; [reflexivity|].
  inversion Hnd as [|? ? Hk0 Hnd']; subst.
  cbn [json_data flat_map obj_get].
  destruct (String.eqb k0 k) eqn:E.
  - apply String.eqb_eq in E; subst.
    destruct v0 as [j|]; cbn; [rewrite String.eqb_refl; reflexivity|].
    fold (json_data d). rewrite IH by exact Hnd'. rewrite obj_get_absent by exact Hk0. reflexivity.
  - destruct v0 as [j|]; cbn; [rewrite E|]; fold (json_data d); apply IH, Hnd'.
Qed.

(** For a [GET] the proxy sends no body; for every other method the body holds exactly the request data's properties whose value is defined. *)
Theorem proxy_body_defined_values (req : ProxyRequest) (k : string) :
  NoDup (map fst (pr_data req)) ->
  option_map (fun b => obj_get b k) (fi_body (proxy_init req)) =
  match pr_method req with
  | GET => None
  | _ => Some (match obj_get (pr_data req) k with Some (Some v) => Some v | _ => None end)
  end.
Proof.
  intro Hnd. unfold proxy_init; cbn [fi_body].
  destruct (pr_method req); try reflexivity; cbn [option_map]; rewrite json_data_get by exact Hnd;
    reflexivity.
Qed.


Lemma proxy_body_defined_values_witness :
  NoDup (map fst (pr_data sample_proxy_request)) /\
  option_map (fun b => obj_get b "name") (fi_body (proxy_init sample_proxy_request)) = Some None.
Proof.
  assert (Hnd : NoDup (map fst (pr_data sample_proxy_request))).
  { constructor; [simpl; intros [H|[]]; discriminate|constructor; [intros []|constructor]]. }
  split; [exact Hnd|]. exact (proxy_body_defined_values sample_proxy_request "name" Hnd).
Defined.

(** The proxy answers either with the upstream response's own status and JSON body, or with status 500 and its fixed error body. *)
Theorem proxy_relays_or_fails (u : upstream) (s : Z) (j : json) :
  proxy_response u = (s, j) ->
  (u = UpReply s (inr j) /\ (200 <= s <= 599)%Z /\ null_body_status s = false) \/
  (s = 500%Z /\ j = error_body "Failed to make API request").
Proof.
  unfold proxy_response. destruct u as [msg|s0 [msg|j0]];
    try (intro H; injection H as <- <-; right; split; reflexivity).
  destruct ((200 <=? s0) && (s0 <=? 599) && negb (null_body_status s0))%Z%bool eqn:E;
    intro H; injection H as <- <-; [left|right; split; reflexivity].
  apply andb_prop in E as [E Hn]. apply andb_prop in E as [E1 E2].
  apply Z.leb_le in E1; apply Z.leb_le in E2; apply negb_true_iff in Hn.
  split; [reflexivity|split; [lia|exact Hn]].
Qed.

Lemma proxy_relays_or_fails_witness :
  proxy_response (UpReply 404 (inr (error_body "Vehicle not found"))) = (404%Z, error_body "Vehicle not found") /\
  ((UpReply 404 (inr (error_body "Vehicle not found")) = UpReply 404 (inr (error_body "Vehicle not found")) /\
    (200 <= 404 <= 599)%Z /\ null_body_status 404 = false) \/
   (404%Z = 500%Z /\ error_body "Vehicle not found" = error_body "Failed to make API request")).
Proof.
  split; [reflexivity|]. apply proxy_relays_or_fails. reflexivity.
Defined.

(** When the proxy's upstream call fails (rejected [fetch] or non-JSON reply) on a step that is not the last, the runner records the proxy's error body as that step's response, shows no error and moves on. *)
Theorem upstream_failure_recorded (wf : ApiWorkflow) (apis : list ApiConfig) (st : runner)
  (api : ApiConfig) (u : upstream) :
  getCurrentApi wf apis (currentStep st) = Some api ->
  S (currentStep st) < length (steps wf) ->
  (forall s j, u <> UpReply s (inr j)) ->
  let st' := snd (handleSubmit wf apis st (via_proxy (proxy_response u))) in
  currentStep st' = S (currentStep st) /\ error st' = None /\ formData st' = [] /\
  resp_get (stepResponses st') (currentStep st) = Some (error_body "Failed to make API request").
Proof.
  intros Ha Hlen Hu st'. subst st'.
  assert (Hp : proxy_response u = (500%Z, error_body "Failed to make API request")).
  { destruct u as [msg|s [msg|j]]; try reflexivity. exfalso; exact (Hu s j eq_refl). }
  destruct (getCurrentApi_step _ _ _ _ Ha) as [step Hs].
  rewrite Hp. unfold handleSubmit, via_proxy; rewrite Ha, Hs; cbn [fst snd].
  replace (Nat.ltb (currentStep st) (length (steps wf) - 1)) with true
    by (symmetry; apply Nat.ltb_lt; lia).
  cbn. rewrite resp_get_set, Nat.eqb_refl.
  repeat split; lia.
Qed.

Lemma upstream_failure_recorded_witness :
  getCurrentApi pan_aml_workflow sample_apis (currentStep step1_state) = Some pan_api /\
  S (currentStep step1_state) < length (steps pan_aml_workflow) /\
  (forall s j, UpFail "ECONNREFUSED" <> UpReply s (inr j)) /\
  (let st' := snd (handleSubmit pan_aml_workflow sample_apis step1_state
                     (via_proxy (proxy_response (UpFail "ECONNREFUSED")))) in
   currentStep st' = S (currentStep step1_state) /\ error st' = None /\ formData st' = [] /\
   resp_get (stepResponses st') (currentStep step1_state)
     = Some (error_body "Failed to make API request")).
Proof.
  assert (Hu : forall s j, UpFail "ECONNREFUSED" <> UpReply s (inr j)) by discriminate.
  split; [reflexivity|]. split; [cbn; lia|]. split; [exact Hu|].
  apply (upstream_failure_recorded _ _ _ pan_api); [reflexivity|cbn; lia|exact Hu].
Defined.

Lemma str_app_assoc (a b c : string) : ((a ++ b) ++ c = a ++ (b ++ c))%string.
Proof. induction a as [|x a IH]; simpl; [reflexivity|]. rewrite IH; reflexivity. Qed.

Lemma str_app_nil (a : string) : (a ++ "")%string = a.
Proof. induction a as [|x a IH]; simpl; [reflexivity|]. rewrite IH; reflexivity. Qed.

Lemma split_dot_from_app (a r cur : string) :
  dot_free a = true -> split_dot_from (a ++ r)%string cur = split_dot_from r (cur ++ a)%string.
Proof.
  revert cur; induction a as [|c a IH]; intros cur Ha; simpl.
  - rewrite str_app_nil; reflexivity.
  - simpl in Ha. apply andb_prop in Ha as [Hc Ha].
    apply negb_true_iff in Hc. rewrite Hc, IH by exact Ha.
    rewrite str_app_assoc. reflexivity.
Qed.

Lemma dot_free_digits (l : list nat) :
  Forall (fun d => d < 10) l -> dot_free (string_of_digits l) = true.
Proof.
  induction l as [|d l IH]; intro Hall; [reflexivity|].
  inversion Hall as [|? ? Hd Hl].
  destruct (digit_char_facts d Hd) as (_ & _ & _ & _ & _ & Hdot & _).
  cbn [string_of_digits dot_free]. rewrite Hdot, IH by exact Hl. reflexivity.
Qed.

Lemma split_dot_index_field (a f : string) :
  dot_free a = true -> dot_free f = true -> split_dot (a ++ String "." f)%string = [a; f].
Proof.
  intros Ha Hf. unfold split_dot. rewrite split_dot_from_app by exact Ha.
  simpl. rewrite <- (str_app_nil f) at 1. rewrite split_dot_from_app by exact Hf.
  reflexivity.
Qed.

(** A mapping whose source path is the decimal numeral of [n], a dot and a dot-free field name reads that field of step [n]'s response when the response is truthy, and is skipped otherwise. *)
Theorem mapping_reads_decimal_index (resps : responses) (n : nat) (f t : string) :
  dot_free f = true ->
  mapping_value resps {| sourceField := (nat_to_string n ++ String "." f)%string; targetParameter := t |} =
  match resp_get resps n with
  | Some r => if truthy r then Some (get_prop r f) else None
  | None => None
  end.
Proof.
  intro Hf. unfold mapping_value. cbn [sourceField].
  destruct (to_digits_spec n n (le_n n)) as (_ & Hall & _).
  rewrite split_dot_index_field by (try exact Hf; apply dot_free_digits, Hall).
  rewrite parseInt_nat_to_string. unfold lookup_resp.
  replace (Z.of_nat n <? 0)%Z with false by (symmetry; apply Z.ltb_ge; lia).
  rewrite Nat2Z.id. reflexivity.
Qed.

Lemma mapping_reads_decimal_index_witness :
  dot_free "holder_name" = true /\
  mapping_value [(12, pan_response)]
    {| sourceField := (nat_to_string 12 ++ String "." "holder_name")%string; targetParameter := "name" |} =
  match resp_get [(12, pan_response)] 12 with
  | Some r => if truthy r then Some (get_prop r "holder_name") else None
  | None => None
  end.
Proof. split; [reflexivity|]. apply mapping_reads_decimal_index. reflexivity. Defined.

Lemma to_digits_head (fuel n : nat) :
  n <= fuel ->
  exists d l, to_digits fuel n = d :: l /\ (d = 0 -> n = 0 /\ l = []).
Proof.
  revert n; induction fuel as [|f IH]; intros n Hn; cbn [to_digits].
  - exists n, []. split; [reflexivity|]. intros ->; split; reflexivity.
  - destruct (Nat.ltb_spec n 10) as [Hlt|Hge].
    + exists n, []. split; [reflexivity|]. intros ->; split; reflexivity.
    + assert (Hq : n / 10 <= f).
      { assert (n / 10 < n) by (apply Nat.div_lt; lia). lia. }
      destruct (IH (n / 10) Hq) as (d & l & Hd & H0).
      rewrite Hd. exists d, (app l [n mod 10]). split; [reflexivity|].
      intros Hd0. destruct (H0 Hd0) as [Hz _].
      apply Nat.div_small_iff in Hz; lia.
Qed.

Lemma digit_char_code (d : nat) : d < 10 -> nat_of_ascii (digit_char d) = 48 + d.
Proof. intro Hd. unfold digit_char. apply nat_ascii_embedding. lia. Qed.

Lemma all_digits_digits (l : list nat) :
  Forall (fun d => d < 10) l -> all_digits (string_of_digits l) = true.
Proof.
  induction l as [|d l IH]; intro Hall; [reflexivity|].
  inversion Hall as [|? ? Hd Hl]. cbn [string_of_digits all_digits].
  unfold is_digit. rewrite (digit_char_code d Hd), IH by exact Hl.
  replace (Nat.leb 48 (48 + d)) with true by (symmetry; apply Nat.leb_le; lia).
  replace (Nat.leb (48 + d) 57) with true by (symmetry; apply Nat.leb_le; lia).
  reflexivity.
Qed.

(** The decimal numeral of [k] is a canonical array index naming [k], and
    is not the key ["length"]. *)
Lemma index_below_nat_to_string (k n : nat) :
  k < n -> index_below (nat_to_string k) n = Some k /\
           String.eqb (nat_to_string k) "length" = false.
Proof.
  intro Hk.
  destruct (to_digits_spec k k (le_n k)) as (_ & Hall & _).
  destruct (to_digits_head k k (le_n k)) as (d & l & Hd & H0).
  assert (Hcan : canonical_index (nat_to_string k) = true).
  { unfold canonical_index. pose proof (all_digits_digits _ Hall) as Had.
    unfold nat_to_string in *. rewrite Hd in *. cbn [string_of_digits] in *.
    rewrite Had. inversion Hall as [|? ? Hd10 Hl]. subst.
    destruct (Nat.eq_dec d 0) as [->|Hne].
    - destruct (H0 eq_refl) as [_ ->]. cbn [string_of_digits].
      rewrite orb_true_r. reflexivity.
    - replace (Ascii.eqb (digit_char d) "0"%char) with false; [reflexivity|].
      symmetry. apply Ascii.eqb_neq. intro He.
      apply (f_equal nat_of_ascii) in He. rewrite digit_char_code in He by exact Hd10.
      cbn in He. lia. }
  split.
  - unfold index_below. rewrite Hcan, parseInt_nat_to_string.
    replace (Z.of_nat k <? Z.of_nat n)%Z with true by (symmetry; apply Z.ltb_lt; lia).
    rewrite Nat2Z.id. reflexivity.
  - unfold nat_to_string. rewrite Hd in Hall |- *. cbn [string_of_digits].
    inversion Hall as [|? ? Hd10 Hl]. subst.
    apply String.eqb_neq. intro He. injection He as He _.
    apply (f_equal nat_of_ascii) in He. rewrite digit_char_code in He by exact Hd10.
    cbn in He. lia.
Qed.

(** Reading an array response: the decimal numeral of an index below the
    length reads that element, and ["length"] reads the length. *)
Theorem get_prop_array (l : list json) (k : nat) :
  k < length l ->
  get_prop (JArr l) (nat_to_string k) = nth_error l k /\
  get_prop (JArr l) "length" = Some (JNum (Z.of_nat (length l))).
Proof.
  intro Hk. destruct (index_below_nat_to_string k (length l) Hk) as [Hi Hl].
  split; [|reflexivity]. cbn [get_prop]. rewrite Hl, Hi. reflexivity.
Qed.

Lemma get_prop_array_witness :
  1 < length [JStr "a"; JStr "b"] /\
  get_prop (JArr [JStr "a"; JStr "b"]) (nat_to_string 1) = nth_error [JStr "a"; JStr "b"] 1 /\
  get_prop (JArr [JStr "a"; JStr "b"]) "length" = Some (JNum (Z.of_nat (length [JStr "a"; JStr "b"]))).
Proof. split; [simpl; lia|]. apply get_prop_array. simpl; lia. Defined.

(** Reading a string value: the decimal numeral of an index below the
    length reads the one-character string there, and ["length"] reads the
    length. *)
Theorem get_prop_string (s : string) (k : nat) :
  k < String.length s ->
  get_prop (JStr s) (nat_to_string k) = option_map (fun c => JStr (String c EmptyString)) (String.get k s) /\
  get_prop (JStr s) "length" = Some (JNum (Z.of_nat (String.length s))).
Proof.
  intro Hk. destruct (index_below_nat_to_string k (String.length s) Hk) as [Hi Hl].
  split; [|reflexivity]. cbn [get_prop]. rewrite Hl, Hi. reflexivity.
Qed.

Lemma get_prop_string_witness :
  2 < String.length "ABCDE1234F" /\
  get_prop (JStr "ABCDE1234F") (nat_to_string 2) =
    option_map (fun c => JStr (String c EmptyString)) (String.get 2 "ABCDE1234F") /\
  get_prop (JStr "ABCDE1234F") "length" = Some (JNum (Z.of_nat (String.length "ABCDE1234F"))).
Proof. split; [simpl; lia|]. apply get_prop_string. simpl; lia. Defined.

Lemma contiguous_from (ss : list WorkflowStep) (k : nat) :
  forallb (fun '(s, n) => Nat.eqb (order s) n) (combine ss (seq k (length ss))) = true <->
  map order ss = seq k (length ss).
Proof.
  revert k; induction ss as [|s ss IH]; intro k; simpl; [split; reflexivity|].
  rewrite andb_true_iff, Nat.eqb_eq, IH. split.
  - intros [-> ->]; reflexivity.
  - intro H; injection H; auto.
Qed.

Lemma orders_contiguous_iff (ss : list WorkflowStep) :
  orders_contiguous ss = true <-> map order ss = seq 1 (length ss).
Proof. apply contiguous_from. Qed.

Lemma map_at_map {A B} (f : A -> A) (g : A -> B) (l : list A) (i : nat) :
  (forall x, g (f x) = g x) -> map g (map_at f l i) = map g l.
Proof.
  intro Hg; revert i; induction l as [|x l IH]; intro i; [reflexivity|].
  destruct i; simpl; [rewrite Hg|rewrite IH]; reflexivity.
Qed.

Lemma map_at_length {A} (f : A -> A) (l : list A) (i : nat) :
  length (map_at f l i) = length l.
Proof.
  revert i; induction l as [|x l IH]; intro i; [reflexivity|].
  destruct i; simpl; [|rewrite IH]; reflexivity.
Qed.

Lemma map_at_keeps_orders (f : WorkflowStep -> WorkflowStep) (ss : list WorkflowStep) (i : nat) :
  (forall s, order (f s) = order s) ->
  orders_contiguous ss = true -> orders_contiguous (map_at f ss i) = true.
Proof.
  intros Hf H. apply orders_contiguous_iff in H. apply orders_contiguous_iff.
  rewrite map_at_map by exact Hf. rewrite map_at_length. exact H.
Qed.

(** Every editor interaction other than removing a step keeps step order numbers contiguous from 1. *)
Theorem only_remove_breaks_contiguity (listed : list ListedApi) (d d' : Draft) (ev : editor_event) :
  (forall i, ev <> RemoveStep i) ->
  orders_contiguous (d_steps d) = true ->
  editor_step listed d ev = Some d' ->
  orders_contiguous (d_steps d') = true.
Proof.
  intros Hev Hc Hstep.
  destruct ev as [s|s| |i|i id|i|i j|i j f v]; cbn [editor_step] in Hstep.
  - injection Hstep as <-; exact Hc.
  - injection Hstep as <-; exact Hc.
  - injection Hstep as <-. unfold handleAddStep, with_steps; cbn [d_steps].
    apply orders_contiguous_iff in Hc. apply orders_contiguous_iff.
    rewrite map_app, Hc, length_app. cbn [map order length].
    rewrite Nat.add_1_r, seq_S. reflexivity.
  - exfalso; exact (Hev i eq_refl).
  - destruct (selectable listed d id); [|discriminate].
    injection Hstep as <-. apply map_at_keeps_orders; [reflexivity|exact Hc].
  - injection Hstep as <-. apply map_at_keeps_orders; [reflexivity|exact Hc].
  - injection Hstep as <-. apply map_at_keeps_orders; [reflexivity|exact Hc].
  - injection Hstep as <-. apply map_at_keeps_orders; [reflexivity|exact Hc].
Qed.

Lemma only_remove_breaks_contiguity_witness :
  (forall i, StepChange 0 "aml" <> RemoveStep i) /\
  orders_contiguous (d_steps (handleAddStep empty_draft)) = true /\
  editor_step (mount_apis [] sample_apis) (handleAddStep empty_draft) (StepChange 0 "aml")
    = Some (handleStepChange (handleAddStep empty_draft) 0 "aml") /\
  orders_contiguous (d_steps (handleStepChange (handleAddStep empty_draft) 0 "aml")) = true.
Proof.
  assert (Hne : forall i, StepChange 0 "aml" <> RemoveStep i) by discriminate.
  split; [exact Hne|]. split; [reflexivity|]. split; [reflexivity|].
  apply (only_remove_breaks_contiguity (mount_apis [] sample_apis) (handleAddStep empty_draft) _
           (StepChange 0 "aml")); [exact Hne|reflexivity|reflexivity].
Defined.

Lemma remove_at_firstn_skipn {A} (l : list A) (i : nat) :
  remove_at l i = firstn i l ++ skipn (S i) l.
Proof.
  revert i; induction l as [|x l IH]; intro i; destruct i; simpl; try reflexivity.
  rewrite IH; reflexivity.
Qed.

(** Removing step [i] splices it out of the list (and changes nothing when [i] is out of range); the other steps keep their order numbers. *)
Theorem remove_step_splices (d : Draft) (i : nat) :
  d_steps (handleRemoveStep d i) = firstn i (d_steps d) ++ skipn (S i) (d_steps d).
Proof. apply remove_at_firstn_skipn. Qed.

Lemma map_at_map_at {A} (f g : A -> A) (l : list A) (i : nat) :
  map_at g (map_at f l i) i = map_at (fun x => g (f x)) l i.
Proof.
  revert i; induction l as [|x l IH]; intro i; [reflexivity|].
  destruct i; simpl; [|rewrite IH]; reflexivity.
Qed.

Lemma map_at_fixed {A} (h : A -> A) (l : list A) (i : nat) (x : A) :
  nth_error l i = Some x -> h x = x -> map_at h l i = l.
Proof.
  revert i; induction l as [|y l IH]; intros i Hn Hh; [reflexivity|].
  destruct i; simpl in *.
  - injection Hn as ->. rewrite Hh; reflexivity.
  - rewrite (IH i Hn Hh); reflexivity.
Qed.

Lemma remove_at_app_last {A} (l : list A) (y : A) : remove_at (l ++ [y]) (length l) = l.
Proof. induction l as [|x l IH]; simpl; [reflexivity|]. rewrite IH; reflexivity. Qed.

(** Adding a mapping to a step that has a mapping list and then removing the mapping at the end of that list gives back the original draft. *)
Theorem add_then_remove_mapping (d : Draft) (i : nat) (s : WorkflowStep)
  (ms : list ApiResponseMapping) :
  nth_error (d_steps d) i = Some s -> responseMapping s = Some ms ->
  handleRemoveMapping (handleAddMapping d i) i (length ms) = d.
Proof.
  intros Hn Hm. unfold handleRemoveMapping, handleAddMapping, with_steps; cbn [d_steps d_name d_description].
  rewrite map_at_map_at, (map_at_fixed _ _ _ s Hn).
  - destruct d; reflexivity.
  - rewrite Hm. unfold set_mappings; cbn [responseMapping option_map].
    rewrite remove_at_app_last. destruct s; cbn in *; subst; reflexivity.
Qed.

Lemma add_then_remove_mapping_witness :
  nth_error (d_steps {| d_name := "KYC"; d_description := "PAN then AML";
                        d_steps := steps pan_aml_workflow |}) 1
    = Some (nth 1 (steps pan_aml_workflow) no_step) /\
  responseMapping (nth 1 (steps pan_aml_workflow) no_step) = Some [holder_mapping] /\
  handleRemoveMapping (handleAddMapping {| d_name := "KYC"; d_description := "PAN then AML";
                                           d_steps := steps pan_aml_workflow |} 1) 1
                      (length [holder_mapping])
    = {| d_name := "KYC"; d_description := "PAN then AML"; d_steps := steps pan_aml_workflow |}.
Proof.
  split; [reflexivity|]. split; [reflexivity|].
  apply (add_then_remove_mapping _ 1 (nth 1 (steps pan_aml_workflow) no_step)); reflexivity.
Defined.

(** Editing a mapping field never adds or removes steps or mappings and never changes a step's API or order number. *)
Theorem mapping_change_keeps_shape (d : Draft) (i j : nat) (f : MappingField) (v : string) :
  map (fun s => (apiConfigId s, order s, option_map (@length _) (responseMapping s)))
      (d_steps (handleMappingChange d i j f v)) =
  map (fun s => (apiConfigId s, order s, option_map (@length _) (responseMapping s)))
      (d_steps d).
Proof.
  unfold handleMappingChange, with_steps; cbn [d_steps].
  apply map_at_map. intros [id o w [ms|]]; cbn; [rewrite map_at_length|]; reflexivity.
Qed.

(** The AML check answers 400 when the body lacks a truthy [name] or [date_of_birth]. *)
Theorem aml_missing_fields (hit : bool) (now : string) (b : json) :
  b <> JNull ->
  present (get_prop b "name") && present (get_prop b "date_of_birth") = false ->
  aml_POST hit now (Some b) = (400%Z, error_body "Name and Date of Birth are required").
Proof.
  intros Hb Hp. destruct b; [congruence| | | | |];
    unfold aml_POST; cbv zeta;
    destruct (get_prop _ "name") as [nm|], (get_prop _ "date_of_birth") as [dob|];
    try reflexivity; cbn [present] in Hp; rewrite Hp; reflexivity.
Qed.

Lemma aml_missing_fields_witness :
  JObj [("name", JStr "John Smith"); ("date_of_birth", JStr "")] <> JNull /\
  present (get_prop (JObj [("name", JStr "John Smith"); ("date_of_birth", JStr "")]) "name") &&
  present (get_prop (JObj [("name", JStr "John Smith"); ("date_of_birth", JStr "")]) "date_of_birth")
    = false /\
  aml_POST false "2024-01-01T00:00:00.000Z"
    (Some (JObj [("name", JStr "John Smith"); ("date_of_birth", JStr "")]))
    = (400%Z, error_body "Name and Date of Birth are required").
Proof.
  assert (Hb : JObj [("name", JStr "John Smith"); ("date_of_birth", JStr "")] <> JNull)
    by discriminate.
  split; [exact Hb|]. split; [reflexivity|]. apply aml_missing_fields; [exact Hb|reflexivity].
Defined.

(** The AML check answers 400 for a date of birth string that is not of the form YYYY-MM-DD. *)
Theorem aml_bad_date (hit : bool) (now : string) (b nm : json) (d : string) :
  get_prop b "name" = Some nm -> truthy nm = true ->
  get_prop b "date_of_birth" = Some (JStr d) -> d <> "" ->
  full_match date_regex d = false ->
  aml_POST hit now (Some b) = (400%Z, error_body "Invalid date format. Use YYYY-MM-DD").
Proof.
  intros Hn Ht Hd Hne Hm.
  assert (Hb : match b with JNull => False | _ => True end) by (destruct b; try discriminate; exact I).
  apply String.eqb_neq in Hne.
  destruct b; [contradiction| | | | |]; unfold aml_POST; cbv zeta; rewrite Hn, Hd;
    cbn [truthy js_to_string]; rewrite Ht, Hne, Hm; reflexivity.
Qed.

Lemma aml_bad_date_witness :
  get_prop (JObj [("name", JStr "Jane"); ("date_of_birth", JStr "15/05/1980")]) "name" = Some (JStr "Jane") /\
  truthy (JStr "Jane") = true /\
  get_prop (JObj [("name", JStr "Jane"); ("date_of_birth", JStr "15/05/1980")]) "date_of_birth"
    = Some (JStr "15/05/1980") /\
  "15/05/1980" <> "" /\ full_match date_regex "15/05/1980" = false /\
  aml_POST true "2024-01-01T00:00:00.000Z"
    (Some (JObj [("name", JStr "Jane"); ("date_of_birth", JStr "15/05/1980")]))
    = (400%Z, error_body "Invalid date format. Use YYYY-MM-DD").
Proof.
  assert (Hne : "15/05/1980" <> "") by discriminate.
  split; [reflexivity|]. split; [reflexivity|]. split; [reflexivity|]. split; [exact Hne|].
  split; [reflexivity|]. apply (aml_bad_date _ _ _ (JStr "Jane") "15/05/1980"); try reflexivity. exact Hne.
Defined.

Lemma aml_accepts (hit : bool) (now : string) (b : json) (n : string) (dob : json) :
  get_prop b "name" = Some (JStr n) -> n <> "" ->
  get_prop b "date_of_birth" = Some dob -> truthy dob = true ->
  full_match date_regex (js_to_string dob) = true ->
  aml_POST hit now (Some b) = (200%Z, aml_result hit now n dob).
Proof.
  intros Hn Hne Hd Ht Hm. apply String.eqb_neq in Hne.
  destruct b; try discriminate; unfold aml_POST; cbv zeta; rewrite Hn, Hd;
    cbn [truthy negb]; rewrite Hne, Ht, Hm; reflexivity.
Qed.

Lemma aml_risk_path (hit : bool) (now n : string) (dob : json) :
  json_path (aml_result hit now n dob) ["data"; "overall_risk_score"] =
  Some (JStr (if (String.eqb "john smith" (to_lower n) && is_str dob "1980-05-15") ||
                 (String.eqb "alice johnson" (to_lower n) && is_str dob "1975-12-20") ||
                 (String.eqb "robert wilson" (to_lower n) && is_str dob "1968-03-10")
              then "HIGH" else "LOW")).
Proof.
  unfold aml_result, person_match. cbn [existsb find highRiskIndividuals pepDatabase].
  change (to_lower "John Smith") with "john smith".
  change (to_lower "Alice Johnson") with "alice johnson".
  change (to_lower "Robert Wilson") with "robert wilson".
  destruct (String.eqb "john smith" (to_lower n) && is_str dob "1980-05-15"),
           (String.eqb "alice johnson" (to_lower n) && is_str dob "1975-12-20"),
           (String.eqb "robert wilson" (to_lower n) && is_str dob "1968-03-10");
    reflexivity.
Qed.

(** For a string name and a well-formed date of birth the AML check answers 200, and the overall risk is HIGH exactly when the name matches a listed person case-insensitively and the date matches exactly, whatever the clock and the random media draw. *)
Theorem aml_risk_score (hit : bool) (now : string) (b : json) (n d : string) :
  get_prop b "name" = Some (JStr n) -> n <> "" ->
  get_prop b "date_of_birth" = Some (JStr d) -> full_match date_regex d = true ->
  fst (aml_POST hit now (Some b)) = 200%Z /\
  (json_path (snd (aml_POST hit now (Some b))) ["data"; "overall_risk_score"] = Some (JStr "HIGH") <->
   (to_lower n = "john smith" /\ d = "1980-05-15") \/
   (to_lower n = "alice johnson" /\ d = "1975-12-20") \/
   (to_lower n = "robert wilson" /\ d = "1968-03-10")).
Proof.
  intros Hn Hne Hd Hm.
  assert (Htd : truthy (JStr d) = true).
  { destruct d; [discriminate|reflexivity]. }
  rewrite (aml_accepts hit now b n (JStr d) Hn Hne Hd Htd Hm). cbn [fst snd].
  split; [reflexivity|]. rewrite aml_risk_path. cbn [is_str].
  destruct (String.eqb_spec "john smith" (to_lower n)),
           (String.eqb_spec d "1980-05-15"),
           (String.eqb_spec "alice johnson" (to_lower n)),
           (String.eqb_spec d "1975-12-20"),
           (String.eqb_spec "robert wilson" (to_lower n)),
           (String.eqb_spec d "1968-03-10");
    cbn; split; intro H; try reflexivity; try (exfalso; congruence);
    intuition congruence.
Qed.


Lemma aml_risk_score_witness :
  get_prop john_body "name" = Some (JStr "JOHN smith") /\ "JOHN smith" <> "" /\
  get_prop john_body "date_of_birth" = Some (JStr "1980-05-15") /\
  full_match date_regex "1980-05-15" = true /\
  fst (aml_POST true "2024-01-01T00:00:00.000Z" (Some john_body)) = 200%Z /\
  (json_path (snd (aml_POST true "2024-01-01T00:00:00.000Z" (Some john_body)))
     ["data"; "overall_risk_score"] = Some (JStr "HIGH") <->
   (to_lower "JOHN smith" = "john smith" /\ "1980-05-15" = "1980-05-15") \/
   (to_lower "JOHN smith" = "alice johnson" /\ "1980-05-15" = "1975-12-20") \/
   (to_lower "JOHN smith" = "robert wilson" /\ "1980-05-15" = "1968-03-10")).
Proof.
  assert (Hne : "JOHN smith" <> "") by discriminate.
  split; [reflexivity|]. split; [exact Hne|]. split; [reflexivity|]. split; [reflexivity|].
  apply aml_risk_score; [reflexivity|exact Hne|reflexivity|reflexivity].
Defined.

(** A date of birth sent as an array whose joined form is a well-formed date passes the format check but is never matched: the risk is LOW. *)
Theorem aml_array_dob_never_flagged (hit : bool) (now : string) (b : json) (n : string)
  (l : list json) :
  get_prop b "name" = Some (JStr n) -> n <> "" ->
  get_prop b "date_of_birth" = Some (JArr l) ->
  full_match date_regex (js_to_string (JArr l)) = true ->
  fst (aml_POST hit now (Some b)) = 200%Z /\
  json_path (snd (aml_POST hit now (Some b))) ["data"; "overall_risk_score"] = Some (JStr "LOW").
Proof.
  intros Hn Hne Hd Hm.
  rewrite (aml_accepts hit now b n (JArr l) Hn Hne Hd eq_refl Hm). cbn [fst snd].
  split; [reflexivity|]. rewrite aml_risk_path. cbn [is_str]. rewrite !andb_false_r. reflexivity.
Qed.


Lemma aml_array_dob_never_flagged_witness :
  get_prop john_array_body "name" = Some (JStr "John Smith") /\ "John Smith" <> "" /\
  get_prop john_array_body "date_of_birth" = Some (JArr [JStr "1980-05-15"]) /\
  full_match date_regex (js_to_string (JArr [JStr "1980-05-15"])) = true /\
  fst (aml_POST false "2024-01-01T00:00:00.000Z" (Some john_array_body)) = 200%Z /\
  json_path (snd (aml_POST false "2024-01-01T00:00:00.000Z" (Some john_array_body)))
    ["data"; "overall_risk_score"] = Some (JStr "LOW").
Proof.
  assert (Hne : "John Smith" <> "") by discriminate.
  split; [reflexivity|]. split; [exact Hne|]. split; [reflexivity|]. split; [reflexivity|].
  apply (aml_array_dob_never_flagged _ _ _ "John Smith" [JStr "1980-05-15"]);
    [reflexivity|exact Hne|reflexivity|reflexivity].
Defined.

(** A truthy name that is not a string, with a well-formed date of birth, makes the AML check fail with 500 ([toLowerCase] is not a function). *)
Theorem aml_nonstring_name_fails (hit : bool) (now : string) (b nm dob : json) :
  get_prop b "name" = Some nm -> truthy nm = true -> (forall s, nm <> JStr s) ->
  get_prop b "date_of_birth" = Some dob -> truthy dob = true ->
  full_match date_regex (js_to_string dob) = true ->
  aml_POST hit now (Some b) = (500%Z, error_body "Internal server error").
Proof.
  intros Hn Ht Hs Hd Htd Hm.
  destruct b; try discriminate; unfold aml_POST; cbv zeta; rewrite Hn, Hd;
    rewrite Ht, Htd, Hm; cbn [andb negb];
    (destruct nm; [reflexivity|reflexivity|reflexivity|exfalso; eapply Hs; reflexivity|reflexivity|reflexivity]).
Qed.


Lemma aml_nonstring_name_fails_witness :
  get_prop numeric_name_body "name" = Some (JNum 42) /\ truthy (JNum 42) = true /\
  (forall s, JNum 42 <> JStr s) /\
  get_prop numeric_name_body "date_of_birth" = Some (JStr "1980-05-15") /\
  truthy (JStr "1980-05-15") = true /\
  full_match date_regex (js_to_string (JStr "1980-05-15")) = true /\
  aml_POST false "2024-01-01T00:00:00.000Z" (Some numeric_name_body)
    = (500%Z, error_body "Internal server error").
Proof.
  assert (Hs : forall s, JNum 42 <> JStr s) by discriminate.
  split; [reflexivity|]. split; [reflexivity|]. split; [exact Hs|].
  split; [reflexivity|]. split; [reflexivity|]. split; [reflexivity|].
  apply (aml_nonstring_name_fails _ _ _ (JNum 42) (JStr "1980-05-15"));
    [reflexivity|reflexivity|exact Hs|reflexivity|reflexivity|reflexivity].
Defined.

(** The RC challan check answers 200 exactly for the two vehicle numbers of its database. *)
Theorem rc_found_iff (after : string -> bool) (now : string) (vn : option string) :
  fst (rc_GET after now vn) = 200%Z <-> vn = Some "MH02BR5544" \/ vn = Some "DL01AB1234".
Proof.
  split.
  - destruct vn as [v|]; [|discriminate]. unfold rc_GET.
    destruct (String.eqb v ""); [discriminate|].
    destruct (negb (full_match vehicle_regex v)); [discriminate|].
    destruct (find (fun x => String.eqb (vehicle_number x) v) vehicleDatabase) as [x|] eqn:F;
      [|discriminate].
    intros _. apply find_some in F as [Hin Heq]. apply String.eqb_eq in Heq.
    destruct Hin as [<-|[<-|[]]]; cbn in Heq; subst; [left|right]; reflexivity.
  - intros [-> | ->]; reflexivity.
Qed.

(** For any other vehicle number the RC challan check answers 400 when it is empty or malformed and 404 when it is well-formed. *)
Theorem rc_unlisted_status (after : string -> bool) (now vn : string) :
  vn <> "MH02BR5544" -> vn <> "DL01AB1234" ->
  rc_GET after now (Some vn) =
  if String.eqb vn "" then (400%Z, error_body "Vehicle number is required")
  else if full_match vehicle_regex vn then (404%Z, error_body "Vehicle not found")
  else (400%Z, error_body "Invalid vehicle number format").
Proof.
  intros H1 H2. unfold rc_GET.
  assert (Hf : find (fun v => String.eqb (vehicle_number v) vn) vehicleDatabase = None).
  { cbn [find vehicleDatabase vehicle_number].
    destruct (String.eqb_spec "MH02BR5544" vn); [congruence|].
    destruct (String.eqb_spec "DL01AB1234" vn); [congruence|reflexivity]. }
  rewrite Hf. destruct (String.eqb vn ""); [reflexivity|].
  destruct (full_match vehicle_regex vn); reflexivity.
Qed.

Lemma rc_unlisted_status_witness :
  "KA01AB0001" <> "MH02BR5544" /\ "KA01AB0001" <> "DL01AB1234" /\
  rc_GET (fun _ => true) "2024-01-01T00:00:00.000Z" (Some "KA01AB0001") =
  (if String.eqb "KA01AB0001" "" then (400%Z, error_body "Vehicle number is required")
   else if full_match vehicle_regex "KA01AB0001" then (404%Z, error_body "Vehicle not found")
   else (400%Z, error_body "Invalid vehicle number format")).
Proof.
  assert (H1 : "KA01AB0001" <> "MH02BR5544") by discriminate.
  assert (H2 : "KA01AB0001" <> "DL01AB1234") by discriminate.
  split; [exact H1|]. split; [exact H2|]. exact (rc_unlisted_status _ _ _ H1 H2).
Defined.

(** With a truthy company name that is not a string, the tax check flags the first listed PAN (the [||] short-circuits) but fails with 500 for the second listed PAN. *)
Theorem tax_company_check_depends_on_pan (now : string) (c : json) :
  truthy c = true -> (forall s, c <> JStr s) ->
  fst (tax_POST now (Some (JObj [("pan", JStr "ABCDE1234F"); ("company_name", c)]))) = 200%Z /\
  json_path (snd (tax_POST now (Some (JObj [("pan", JStr "ABCDE1234F"); ("company_name", c)]))))
    ["data"; "is_defaulter"] = Some (JBool true) /\
  tax_POST now (Some (JObj [("pan", JStr "PQRST5678G"); ("company_name", c)]))
    = (500%Z, error_body "Internal server error").
Proof.
  intros Ht Hs.
  destruct c as [|bb|z|s|l|fs]; cbn in Ht; try discriminate;
    [subst bb| |exfalso; eapply Hs; reflexivity| |];
    unfold tax_POST; cbn; rewrite ?Ht; cbn; repeat split; reflexivity.
Qed.

Lemma tax_company_check_depends_on_pan_witness :
  truthy (JNum 7) = true /\ (forall s, JNum 7 <> JStr s) /\
  fst (tax_POST "2024-01-01T00:00:00.000Z"
         (Some (JObj [("pan", JStr "ABCDE1234F"); ("company_name", JNum 7)]))) = 200%Z /\
  json_path (snd (tax_POST "2024-01-01T00:00:00.000Z"
                    (Some (JObj [("pan", JStr "ABCDE1234F"); ("company_name", JNum 7)]))))
    ["data"; "is_defaulter"] = Some (JBool true) /\
  tax_POST "2024-01-01T00:00:00.000Z"
    (Some (JObj [("pan", JStr "PQRST5678G"); ("company_name", JNum 7)]))
    = (500%Z, error_body "Internal server error").
Proof.
  assert (Hs : forall s, JNum 7 <> JStr s) by discriminate.
  split; [reflexivity|]. split; [exact Hs|].
  apply tax_company_check_depends_on_pan; [reflexivity|exact Hs].
Defined.

Lemma full_match_nonempty (p : list char_class) (s : string) :
  p <> [] -> full_match p s = true -> s <> "".
Proof. destruct p, s; cbn; congruence. Qed.

(** For a well-formed PAN and a non-empty company name string the tax check answers 200 and flags a defaulter exactly when the PAN is listed or the company name matches a listed name case-insensitively. *)
Theorem tax_string_inputs (now : string) (b : json) (p c : string) :
  get_prop b "pan" = Some (JStr p) -> full_match pan_regex p = true ->
  get_prop b "company_name" = Some (JStr c) -> c <> "" ->
  fst (tax_POST now (Some b)) = 200%Z /\
  (json_path (snd (tax_POST now (Some b))) ["data"; "is_defaulter"] = Some (JBool true) <->
   p = "ABCDE1234F" \/ p = "PQRST5678G" \/
   to_lower c = "default corp ltd" \/ to_lower c = "defaulter industries").
Proof.
  intros Hp Hm Hc Hne.
  assert (Hpe : p <> "") by (apply (full_match_nonempty pan_regex); [discriminate|exact Hm]).
  apply String.eqb_neq in Hne, Hpe.
  assert (E : tax_POST now (Some b) =
              (200%Z, tax_result now (JStr p) (JStr c)
                        (String.eqb p "ABCDE1234F" || String.eqb "default corp ltd" (to_lower c) ||
                         (String.eqb p "PQRST5678G" || String.eqb "defaulter industries" (to_lower c))))).
  { destruct b; try discriminate; unfold tax_POST; rewrite Hp, Hc; cbn [truthy js_to_string];
      rewrite Hne, Hpe, Hm; cbn [andb negb defaulter_some taxDefaulters is_str];
      change (to_lower "Default Corp Ltd") with "default corp ltd";
      change (to_lower "Defaulter Industries") with "defaulter industries";
      destruct (String.eqb p "ABCDE1234F"), (String.eqb "default corp ltd" (to_lower c)),
               (String.eqb p "PQRST5678G"), (String.eqb "defaulter industries" (to_lower c));
      reflexivity. }
  rewrite E. split; [reflexivity|]. cbn [snd].
  destruct (String.eqb_spec p "ABCDE1234F"), (String.eqb_spec "default corp ltd" (to_lower c)),
           (String.eqb_spec p "PQRST5678G"), (String.eqb_spec "defaulter industries" (to_lower c));
    cbn; split; intro H; try reflexivity; try (exfalso; congruence); intuition congruence.
Qed.

Lemma tax_string_inputs_witness :
  get_prop (JObj [("pan", JStr "AAAAA0000A"); ("company_name", JStr "DEFAULT CORP LTD")]) "pan"
    = Some (JStr "AAAAA0000A") /\
  full_match pan_regex "AAAAA0000A" = true /\
  get_prop (JObj [("pan", JStr "AAAAA0000A"); ("company_name", JStr "DEFAULT CORP LTD")]) "company_name"
    = Some (JStr "DEFAULT CORP LTD") /\
  "DEFAULT CORP LTD" <> "" /\
  fst (tax_POST "t" (Some (JObj [("pan", JStr "AAAAA0000A"); ("company_name", JStr "DEFAULT CORP LTD")])))
    = 200%Z /\
  (json_path (snd (tax_POST "t" (Some (JObj [("pan", JStr "AAAAA0000A");
                                              ("company_name", JStr "DEFAULT CORP LTD")]))))
     ["data"; "is_defaulter"] = Some (JBool true) <->
   "AAAAA0000A" = "ABCDE1234F" \/ "AAAAA0000A" = "PQRST5678G" \/
   to_lower "DEFAULT CORP LTD" = "default corp ltd" \/
   to_lower "DEFAULT CORP LTD" = "defaulter industries").
Proof.
  assert (Hne : "DEFAULT CORP LTD" <> "") by discriminate.
  split; [reflexivity|]. split; [reflexivity|]. split; [reflexivity|]. split; [exact Hne|].
  apply tax_string_inputs; [reflexivity|reflexivity|reflexivity|exact Hne].
Defined.

(** The tax check answers 400 when the body lacks a truthy [pan] or [company_name]. *)
Theorem tax_missing_fields (now : string) (b : json) :
  b <> JNull ->
  present (get_prop b "pan") && present (get_prop b "company_name") = false ->
  tax_POST now (Some b) = (400%Z, error_body "PAN and Company Name are required").
Proof.
  intros Hb Hp. destruct b; [congruence| | | | |];
    unfold tax_POST;
    destruct (get_prop _ "pan") as [pn|], (get_prop _ "company_name") as [cn|];
    try reflexivity; cbn [present] in Hp; rewrite Hp; reflexivity.
Qed.

Lemma tax_missing_fields_witness :
  JArr [] <> JNull /\
  present (get_prop (JArr []) "pan") && present (get_prop (JArr []) "company_name") = false /\
  tax_POST "t" (Some (JArr [])) = (400%Z, error_body "PAN and Company Name are required").
Proof.
  assert (Hb : JArr [] <> JNull) by discriminate.
  split; [exact Hb|]. split; [reflexivity|]. apply tax_missing_fields; [exact Hb|reflexivity].
Defined.
